(** * The clone bridge of git2go (clone.go)

    A shallow embedding of [Clone], of the remote-creation trampoline
    [remoteCreateCallback] and of the option translator
    [populateCloneOptions] / [freeCloneOptions], with the state they share
    written out: the handle registry, the C heap of [C.CString] buffers, the
    managed cells holding an [error], and the finalizers of managed wrappers.

    What clone.go only calls (the checkout and fetch translators, the native
    clone primitive, the error-code tables) is a variable of the section
    [Bridge]. *)

From stdpp Require Import gmap strings.

Local Open Scope string_scope.

(** ** Values that cross the boundary *)

(** A C pointer is an address; address 0 is NULL (Go's nil). *)
Abbreviation pointer := N (only parsing).
Abbreviation NULL := 0%N (only parsing).

(** [ErrorCode] is Go's [int]; the bridge only compares codes. *)
Abbreviation ErrorCode := Z (only parsing).

(** Managed wrappers.  [repo_addr] and [remote_addr] are the addresses of the
    wrappers in the managed heap (what a finalizer is attached to); [repo_ptr]
    and [remote_ptr] are the field [ptr], the native object. *)
Record Repository := mkRepository { repo_addr : pointer; repo_ptr : pointer }.
Record Remote := mkRemote { remote_addr : pointer; remote_ptr : pointer }.

(** Go's [error] values met in this file: [errors.New(text)] and the
    [*GitError] built by [MakeGitError]. *)
Inductive error :=
  | errors_New (text : string)
  | GitError (code : ErrorCode) (message : string).

(** The Go type [RemoteCreateCallback]: a function of a repository, a name
    and a url to a pointer to [Remote] and an [ErrorCode]; the nil pointer
    is [None]. *)
Definition RemoteCreateCallbackT : Type :=
  Repository → string → string → option Remote * ErrorCode.

(** A fresh non-NULL address. *)
Definition fresh_ptr (live : gset N) : pointer := fresh ({[NULL]} ∪ live).

Lemma fresh_ptr_not_null live : fresh_ptr live ≠ NULL.
Proof. unfold fresh_ptr. pose proof (is_fresh ({[NULL]} ∪ live)). set_solver. Qed.

Lemma fresh_ptr_not_live live : fresh_ptr live ∉ live.
Proof. unfold fresh_ptr. pose proof (is_fresh ({[NULL]} ∪ live)). set_solver. Qed.

(** How a Go function stops without returning: a panic (deferred calls of
    the frames it unwinds still run) or a fatal error thrown by the runtime
    (the process ends at once). *)
Inductive abort :=
  | GoPanic (msg : string)
  | FatalThrow (msg : string).

Definition nil_dereference : string :=
  "runtime error: invalid memory address or nil pointer dereference".

Section Bridge.

(** ** External collaborators: types *)

(** The managed checkout and fetch configurations embedded in
    [CloneOptions], and the native structures they are translated to. *)
Variables CheckoutOptsT FetchOptionsT : Type.
Variables git_checkout_options git_fetch_options : Type.

(** ** Data of clone.go *)

Record CloneOptions := mkCloneOptions {
  CheckoutOpts : option CheckoutOptsT;
  FetchOptions : option FetchOptionsT;
  Bare : bool;
  CheckoutBranch : string;
  RemoteCreateCallback : option RemoteCreateCallbackT
}.

(** The fields of [C.git_clone_options] that clone.go reads or writes.
    [remote_cb] is a function pointer: [true] when it holds the address of
    the trampoline, [false] when it is NULL. *)
Record git_clone_options := mk_git_clone_options {
  checkout_opts : git_checkout_options;
  fetch_opts : git_fetch_options;
  bare : Z;
  checkout_branch : pointer;
  remote_cb : bool;
  remote_cb_payload : pointer
}.

(** The struct [cloneCallbackData]: both fields are pointers, [options] to
    the caller's [CloneOptions] and [errorTarget] to a variable of type
    [error]. *)
Record cloneCallbackData := mk_cloneCallbackData {
  options : option CloneOptions;
  errorTarget : pointer
}.

(** What the handle registry holds is an [interface{}]: a pointer to a
    [cloneCallbackData], or a value of another dynamic type (the callback
    data of other translators). *)
Inductive tracked :=
  | as_cloneCallbackData (data : cloneCallbackData)
  | as_other (tag : N).

(** The type assertion to a pointer to [cloneCallbackData], in its comma-ok
    form, on the result of a registry lookup. *)
Definition assert_cloneCallbackData (x : option tracked) : option cloneCallbackData :=
  match x with
  | Some (as_cloneCallbackData data) => Some data
  | _ => None
  end.

(** What can be observed of a run from outside: each call of the native clone
    primitive with its arguments and the C heap it sees, and each entry into
    the trampoline. *)
Inductive event :=
  | EvNativeClone (curl cpath : pointer) (cOptions : option git_clone_options)
                  (heap : gmap N string)
  | EvTrampoline (payload : pointer).

(** ** The state of the process *)

Record World := mkWorld {
  pointerHandles : gmap N tracked;      (* the handle registry *)
  cheap : gmap N string;                (* live C.CString buffers *)
  errcells : gmap N (option error);     (* managed variables of type error *)
  goheap : gset N;                      (* managed wrappers allocated so far *)
  finalizers : gset N;                  (* wrappers with a finalizer set *)
  trace : list event
}.

Definition set_pointerHandles (h : gmap N tracked) (w : World) : World :=
  mkWorld h (cheap w) (errcells w) (goheap w) (finalizers w) (trace w).
Definition set_cheap (c : gmap N string) (w : World) : World :=
  mkWorld (pointerHandles w) c (errcells w) (goheap w) (finalizers w) (trace w).
Definition set_errcells (e : gmap N (option error)) (w : World) : World :=
  mkWorld (pointerHandles w) (cheap w) e (goheap w) (finalizers w) (trace w).
Definition set_finalizers (f : gset N) (w : World) : World :=
  mkWorld (pointerHandles w) (cheap w) (errcells w) (goheap w) f (trace w).
Definition log (ev : event) (w : World) : World :=
  mkWorld (pointerHandles w) (cheap w) (errcells w) (goheap w) (finalizers w)
          (trace w ++ [ev]).

(** The outcome of a call: a value and the state it leaves, or an abort. *)
Inductive Result (A : Type) :=
  | Ok (a : A) (w : World)
  | Abort (e : abort) (w : World).
Arguments Ok {A} a w.
Arguments Abort {A} e w.

Definition world_of {A} (r : Result A) : World :=
  match r with Ok _ w => w | Abort _ w => w end.

Definition aborts {A} (r : Result A) : Prop :=
  match r with Ok _ _ => False | Abort _ _ => True end.

Definition bind {A B} (r : Result A) (k : A → World → Result B) : Result B :=
  match r with
  | Ok a w => k a w
  | Abort e w => Abort e w
  end.

(** [defer f] around a body: [f] runs when the body returns and when it
    panics, not when the runtime throws. *)
Definition defer_ {A} (f : World → World) (body : Result A) : Result A :=
  match body with
  | Ok a w => Ok a (f w)
  | Abort (GoPanic msg) w => Abort (GoPanic msg) (f w)
  | Abort (FatalThrow msg) w => Abort (FatalThrow msg) w
  end.

(** The part of the state a translator of sub-options works on: the handle
    registry and the C heap. *)
Definition Native : Type := gmap N tracked * gmap N string.

Definition with_native {A} (f : Native → A * Native) (w : World) : A * World :=
  let '(a, (h, c)) := f (pointerHandles w, cheap w) in
  (a, set_cheap c (set_pointerHandles h w)).

(** ** External collaborators: operations *)

(** [ErrorCodeOK] and [ErrorCodeUser] (the reserved sentinel), the table
    behind [ErrorCode.String], [MakeGitError] and [cbool] are declared in
    other files of the package. *)
Variables ErrorCodeOK ErrorCodeUser : ErrorCode.
Variable ErrorCode_String : ErrorCode → string.
Variable MakeGitError : Z → error.
Variable cbool : bool → Z.

(** The checkout and fetch parts of [GIT_CLONE_OPTIONS_INIT]. *)
Variable git_checkout_options_init : git_checkout_options.
Variable git_fetch_options_init : git_fetch_options.

(** [populateCheckoutOptions(ptr, opts, errorTarget)] and
    [populateFetchOptions(ptr, opts)] fill the structure [ptr] points to;
    [freeCheckoutOptions(ptr)] is the checkout translator's teardown. *)
Variable populateCheckoutOptions :
  git_checkout_options → option CheckoutOptsT → pointer → Native →
  git_checkout_options * Native.
Variable populateFetchOptions :
  git_fetch_options → option FetchOptionsT → Native → git_fetch_options * Native.
Variable freeCheckoutOptions : git_checkout_options → Native → Native.

(** What the native engine does in one [git_clone]: it returns a code and a
    repository pointer, possibly after reaching, once, the point where the
    remote is created.  There it calls the hook [remote_cb] when one is
    installed, and builds the remote itself ([dflt]) when none is; [k] turns
    the code and the remote it then holds into the final code and
    repository pointer. *)
Inductive native_run :=
  | NativeReturn (ret : Z) (out : pointer)
  | NativeCreateRemote (crepo : pointer) (cname curl : option string)
                       (dflt : Z * pointer) (k : Z → pointer → Z * pointer).

Variable git_clone :
  pointer → pointer → option git_clone_options → World → native_run.

(** ** Runtime and C library *)

(** [C.CString(s)]: a new buffer on the C heap holding [s]. *)
Definition C_CString (s : string) (w : World) : pointer * World :=
  let p := fresh_ptr (dom (cheap w)) in
  (p, set_cheap (<[p := s]> (cheap w)) w).

(** [C.free(p)]: nothing on NULL, otherwise the buffer at [p] is gone. *)
Definition C_free (p : pointer) (w : World) : World :=
  if decide (p = NULL) then w else set_cheap (delete p (cheap w)) w.

(** [C.GoString(p)], on the string [p] points to: NULL gives the empty
    string. *)
Definition C_GoString (p : option string) : string := default "" p.

(** [runtime.SetFinalizer(obj, nil)], on the address [obj] points to.  Go
    requires [obj] to point to an allocated object and may abort the program
    otherwise: on a nil pointer the runtime throws [pointer not in heap].  On
    a wrapper it removes the finalizer, if any. *)
Definition runtime_SetFinalizer_nil (obj : option pointer) (w : World) : Result unit :=
  match obj with
  | None => Abort (FatalThrow "runtime.SetFinalizer: pointer not in heap") w
  | Some a => Ok tt (set_finalizers (finalizers w ∖ {[a]}) w)
  end.

(** [var err error]: a new managed variable, holding nil. *)
Definition new_error (w : World) : pointer * World :=
  let l := fresh_ptr (dom (errcells w)) in
  (l, set_errcells (<[l := None]> (errcells w)) w).

(** [*target = e]. *)
Definition store_error (target : pointer) (e : error) (w : World) : Result unit :=
  if decide (target = NULL) then Abort (GoPanic nil_dereference) w
  else Ok tt (set_errcells (<[target := Some e]> (errcells w)) w).

(** The value of the variable at [target]; [None] is Go's nil error. *)
Definition load_error (target : pointer) (w : World) : option error :=
  default None (errcells w !! target).

(** Modelled from the spec: the package's [newRepositoryFromC], the
    repository-handle constructor, is not in clone.go.  It wraps the native
    pointer in a new managed handle that owns it: the wrapper has a
    finalizer. *)
Definition newRepositoryFromC (ptr : pointer) (w : World) : Repository * World :=
  let a := fresh_ptr (goheap w) in
  (mkRepository a ptr,
   mkWorld (pointerHandles w) (cheap w) (errcells w) ({[a]} ∪ goheap w)
           ({[a]} ∪ finalizers w) (trace w)).

(** ** Handle registry *)

(** Modelled from the spec: the registry [pointerHandles] (type
    [HandleList]) is not in clone.go.  [Track(object)] gives a token that is
    unique while it is tracked, [Get(token)] the object or nothing,
    [Untrack(token)] removes the entry. *)
Definition Track (obj : tracked) (w : World) : pointer * World :=
  let token := fresh_ptr (dom (pointerHandles w)) in
  (token, set_pointerHandles (<[token := obj]> (pointerHandles w)) w).

Definition Get (token : pointer) (w : World) : option tracked :=
  pointerHandles w !! token.

Definition Untrack (token : pointer) (w : World) : World :=
  set_pointerHandles (delete token (pointerHandles w)) w.

(** ** Option translator *)

(** [C.git_clone_options_init(ptr, C.GIT_CLONE_OPTIONS_VERSION)]: the
    engine's defaults, no branch, no hook, no payload. *)
Definition git_clone_options_init : git_clone_options :=
  {| checkout_opts := git_checkout_options_init;
     fetch_opts := git_fetch_options_init;
     bare := 0;
     checkout_branch := NULL;
     remote_cb := false;
     remote_cb_payload := NULL |}.

(** Modelled from the spec: the C helper [_go_git_populate_clone_callbacks]
    is not in clone.go.  It installs the trampoline as the engine's
    remote-creation hook. *)
Definition _go_git_populate_clone_callbacks (ptr : git_clone_options) : git_clone_options :=
  {| checkout_opts := checkout_opts ptr;
     fetch_opts := fetch_opts ptr;
     bare := bare ptr;
     checkout_branch := checkout_branch ptr;
     remote_cb := true;
     remote_cb_payload := remote_cb_payload ptr |}.

(** [populateCloneOptions(ptr, opts, errorTarget)].  [ptr] points to a
    structure that [git_clone_options_init] overwrites whole, so the model
    starts from the initialised structure; the result is the structure the
    returned pointer points to, [None] for the nil pointer. *)
Definition populateCloneOptions (opts : option CloneOptions) (errorTarget : pointer)
    (w : World) : option git_clone_options * World :=
  let ptr := git_clone_options_init in
  match opts with
  | None => (None, w)
  | Some o =>
    let '(co, w) :=
      with_native (populateCheckoutOptions (checkout_opts ptr) (CheckoutOpts o) errorTarget) w in
    let '(fo, w) :=
      with_native (populateFetchOptions (fetch_opts ptr) (FetchOptions o)) w in
    let ptr :=
      {| checkout_opts := co; fetch_opts := fo; bare := cbool (Bare o);
         checkout_branch := checkout_branch ptr;
         remote_cb := remote_cb ptr;
         remote_cb_payload := remote_cb_payload ptr |} in
    match RemoteCreateCallback o with
    | Some _ =>
      let data := {| options := Some o; errorTarget := errorTarget |} in
      let ptr := _go_git_populate_clone_callbacks ptr in
      let '(token, w) := Track (as_cloneCallbackData data) w in
      (Some {| checkout_opts := checkout_opts ptr; fetch_opts := fetch_opts ptr;
               bare := bare ptr; checkout_branch := checkout_branch ptr;
               remote_cb := remote_cb ptr;
               remote_cb_payload := token |}, w)
    | None => (Some ptr, w)
    end
  end.

(** The checkout translator's teardown, run on the state of the process. *)
Definition run_freeCheckoutOptions (co : git_checkout_options) (w : World) : World :=
  snd (with_native (λ n, (tt, freeCheckoutOptions co n)) w).

(** [freeCloneOptions(ptr)]. *)
Definition freeCloneOptions (ptr : option git_clone_options) (w : World) : World :=
  match ptr with
  | None => w
  | Some c =>
    let w := run_freeCheckoutOptions (checkout_opts c) w in
    let w :=
      if decide (remote_cb_payload c ≠ NULL) then Untrack (remote_cb_payload c) w
      else w in
    C_free (checkout_branch c) w
  end.

(** ** Callback trampoline *)

(** [remoteCreateCallback(cremote, crepo, cname, curl, payload)].  [cname]
    and [curl] are given by the strings they point to.  The result is the
    code returned to the engine and what was written through [cremote], if
    anything. *)
Definition remoteCreateCallback (crepo : pointer) (cname curl : option string)
    (payload : pointer) (w : World) : Result (Z * option pointer) :=
  let w := log (EvTrampoline payload) w in
  let name := C_GoString cname in
  let url := C_GoString curl in
  let '(repo, w) := newRepositoryFromC crepo w in
  (* We don't own this repository, so make sure we don't try to free it *)
  bind (runtime_SetFinalizer_nil (Some (repo_addr repo)) w) (λ _ w,
  match assert_cloneCallbackData (Get payload w) with
  | None => Abort (GoPanic "invalid remote create callback") w
  | Some data =>
    match options data with
    | None => Abort (GoPanic nil_dereference) w
    | Some o =>
      match RemoteCreateCallback o with
      | None => Abort (GoPanic nil_dereference) w
      | Some callback =>
        let '(remote, ret) := callback repo name url in
        (* clear finalizer as the calling C function will free the remote itself *)
        bind (runtime_SetFinalizer_nil (remote_addr <$> remote) w) (λ _ w,
        if (ret <? 0)%Z then
          bind (store_error (errorTarget data) (errors_New (ErrorCode_String ret)) w)
               (λ _ w, Ok (ErrorCodeUser, None) w)
        else
          match remote with
          | None => Abort (GoPanic "no remote created by callback") w
          | Some r => Ok (ErrorCodeOK, Some (remote_ptr r)) w
          end)
      end
    end
  end).

(** ** Clone orchestrator *)

(** [C.git_clone(&ptr, curl, cpath, cOptions)]: the engine runs once, and
    enters the trampoline when it reaches the creation of the remote with the
    hook installed.  The location the trampoline writes the remote to starts
    as NULL. *)
Definition C_git_clone (curl cpath : pointer) (cOptions : option git_clone_options)
    (w : World) : Result (Z * pointer) :=
  let w := log (EvNativeClone curl cpath cOptions (cheap w)) w in
  match git_clone curl cpath cOptions w with
  | NativeReturn ret out => Ok (ret, out) w
  | NativeCreateRemote crepo cname curl' dflt k =>
    match cOptions with
    | Some c =>
      if remote_cb c then
        bind (remoteCreateCallback crepo cname curl' (remote_cb_payload c) w)
             (λ '(code, cremote) w, Ok (k code (default NULL cremote)) w)
      else Ok (k (fst dflt) (snd dflt)) w
    | None => Ok (k (fst dflt) (snd dflt)) w
    end
  end.

(** Lines 36 to 38 of [Clone]: the branch override, written into the
    structure [cOptions] points to. *)
Definition set_checkout_branch (branch : string) (cOptions : option git_clone_options)
    (w : World) : Result (option git_clone_options) :=
  if decide (String.length branch ≠ 0) then
    let '(p, w) := C_CString branch w in
    match cOptions with
    | None => Abort (GoPanic nil_dereference) w
    | Some c =>
      Ok (Some {| checkout_opts := checkout_opts c; fetch_opts := fetch_opts c;
                  bare := bare c; checkout_branch := p;
                  remote_cb := remote_cb c;
                  remote_cb_payload := remote_cb_payload c |}) w
    end
  else Ok cOptions w.

(** Lines 46 to 53 of [Clone]: what is returned for the code [ret].  Go's
    pair of a repository and an error is a sum. *)
Definition Clone_return (ret : Z) (ptr : pointer) (err : pointer) (w : World)
    : Result (Repository + error) :=
  match (if decide (ret = ErrorCodeUser) then load_error err w else None) with
  | Some e => Ok (inr e) w
  | None =>
    if (ret <? 0)%Z then Ok (inr (MakeGitError ret)) w
    else let '(repo, w) := newRepositoryFromC ptr w in Ok (inl repo) w
  end.

(** [Clone(url, path, options)].  The three deferred releases wrap the code
    that follows them; [freeCloneOptions] is deferred on the pointer
    [cOptions] and so sees the structure as the branch override left it.
    Pinning the thread ([runtime.LockOSThread]) has no effect on the state. *)
Definition Clone (url path : string) (options : option CloneOptions) (w : World)
    : Result (Repository + error) :=
  let '(curl, w) := C_CString url w in
  defer_ (C_free curl) (
  let '(cpath, w) := C_CString path w in
  defer_ (C_free cpath) (
  let '(err, w) := new_error w in
  let '(cOptions, w) := populateCloneOptions options err w in
  match options with
  | None => defer_ (freeCloneOptions cOptions) (Abort (GoPanic nil_dereference) w)
  | Some o =>
    match set_checkout_branch (CheckoutBranch o) cOptions w with
    | Abort e w => defer_ (freeCloneOptions cOptions) (Abort e w)
    | Ok cOptions w =>
      defer_ (freeCloneOptions cOptions) (
        bind (C_git_clone curl cpath cOptions w)
             (λ '(ret, ptr) w, Clone_return ret ptr err w))
    end
  end)).

(** ** The trampoline *)

(** The message of the runtime's fatal error on a nil pointer. *)
Definition pointer_not_in_heap : string := "runtime.SetFinalizer: pointer not in heap".

(** The borrowed repository handle the trampoline hands to the callback. *)
Definition borrowed_repo (crepo : pointer) (w : World) : Repository :=
  fst (newRepositoryFromC crepo w).

(** Whatever code comes with it, a nil remote stops the trampoline at the
    finalizer-clearing step: the runtime throws, nothing is stored in the
    error slot and nothing is returned to the engine. *)
Lemma remoteCreateCallback_nil_remote crepo cname curl payload w data o callback ret :
  Get payload w = Some (as_cloneCallbackData data) →
  options data = Some o →
  RemoteCreateCallback o = Some callback →
  callback (borrowed_repo crepo w) (C_GoString cname) (C_GoString curl) = (None, ret) →
  ∃ w', remoteCreateCallback crepo cname curl payload w
          = Abort (FatalThrow pointer_not_in_heap) w'
        ∧ pointerHandles w' = pointerHandles w
        ∧ errcells w' = errcells w.
Proof.
  intros Hget Hopts Hcb Hcall.
  unfold remoteCreateCallback, borrowed_repo, Get in *. simpl in *.
  rewrite Hget. simpl. rewrite Hopts, Hcb, Hcall. simpl.
  eexists. split; [reflexivity|]. split; reflexivity.
Qed.

(** C9: a payload that does not resolve to a callback registration entry
    (unknown token, or an entry of another type) makes the trampoline panic;
    no code is returned to the engine. *)
Theorem remoteCreateCallback_unresolved_payload_panics crepo cname curl payload w :
  assert_cloneCallbackData (Get payload w) = None →
  ∃ w', remoteCreateCallback crepo cname curl payload w
          = Abort (GoPanic "invalid remote create callback") w'
        ∧ pointerHandles w' = pointerHandles w
        ∧ errcells w' = errcells w.
Proof.
  intros Hget.
  unfold remoteCreateCallback, Get in *. simpl in *.
  rewrite Hget.
  eexists. split; [reflexivity|]. split; reflexivity.
Qed.

(** C6: when the callback returns a success code and no remote, the
    trampoline aborts: it returns neither an error code nor success.  The
    abort comes from the finalizer-clearing step, before the check of line
    84 is reached. *)
Theorem remoteCreateCallback_success_without_remote_aborts
    crepo cname curl payload w data o callback ret :
  Get payload w = Some (as_cloneCallbackData data) →
  options data = Some o →
  RemoteCreateCallback o = Some callback →
  callback (borrowed_repo crepo w) (C_GoString cname) (C_GoString curl) = (None, ret) →
  (0 ≤ ret)%Z →
  aborts (remoteCreateCallback crepo cname curl payload w)
  ∧ (∀ code cremote w',
       remoteCreateCallback crepo cname curl payload w ≠ Ok (code, cremote) w')
  ∧ ∃ w', remoteCreateCallback crepo cname curl payload w
          = Abort (FatalThrow pointer_not_in_heap) w'.
Proof.
  intros Hget Hopts Hcb Hcall _.
  destruct (remoteCreateCallback_nil_remote _ _ _ _ _ _ _ _ _ Hget Hopts Hcb Hcall)
    as (w' & -> & _).
  split; [exact I|]. split; [discriminate|]. exists w'. reflexivity.
Qed.

(** C7: when the callback returns a remote with a success code, the
    trampoline clears the finalizer of the remote's wrapper, writes the
    remote's native pointer through the output parameter and returns the
    success code. *)
Theorem remoteCreateCallback_success_hands_over_remote
    crepo cname curl payload w data o callback r ret :
  Get payload w = Some (as_cloneCallbackData data) →
  options data = Some o →
  RemoteCreateCallback o = Some callback →
  callback (borrowed_repo crepo w) (C_GoString cname) (C_GoString curl) = (Some r, ret) →
  (0 ≤ ret)%Z →
  ∃ w', remoteCreateCallback crepo cname curl payload w
          = Ok (ErrorCodeOK, Some (remote_ptr r)) w'
        ∧ (remote_addr r ∉ finalizers w')
        ∧ pointerHandles w' = pointerHandles w
        ∧ errcells w' = errcells w.
Proof.
  intros Hget Hopts Hcb Hcall Hret.
  unfold remoteCreateCallback, borrowed_repo, Get in *. simpl in *.
  rewrite Hget. simpl. rewrite Hopts, Hcb, Hcall. simpl.
  destruct (Z.ltb_spec ret 0) as [Hneg|_]; [lia|].
  eexists. split; [reflexivity|]. simpl.
  split; [|split; reflexivity].
  intros [_ Hn]%elem_of_difference. apply Hn, elem_of_singleton. reflexivity.
Qed.

(** C10: the finalizer-clearing step comes before the test of the code.  A
    nil remote with a negative code makes the runtime throw there; the
    branch that stores the error and returns the sentinel is not reached, and
    the error slot is left as it was. *)
Theorem remoteCreateCallback_nil_remote_negative_code_faults
    crepo cname curl payload w data o callback ret :
  Get payload w = Some (as_cloneCallbackData data) →
  options data = Some o →
  RemoteCreateCallback o = Some callback →
  callback (borrowed_repo crepo w) (C_GoString cname) (C_GoString curl) = (None, ret) →
  (ret < 0)%Z →
  ∃ w', remoteCreateCallback crepo cname curl payload w
          = Abort (FatalThrow pointer_not_in_heap) w'
        ∧ load_error (errorTarget data) w' = load_error (errorTarget data) w
        ∧ remoteCreateCallback crepo cname curl payload w ≠ Ok (ErrorCodeUser, None) w'.
Proof.
  intros Hget Hopts Hcb Hcall _.
  destruct (remoteCreateCallback_nil_remote _ _ _ _ _ _ _ _ _ Hget Hopts Hcb Hcall)
    as (w' & Heq & _ & Herr).
  exists w'. rewrite Heq. unfold load_error. rewrite Herr.
  split; [reflexivity|]. split; [reflexivity | discriminate].
Qed.

(** The error-capture branch, when it is reached: with a remote and a
    negative code the error built from the code's text is stored in the slot
    and the sentinel is returned. *)
Lemma remoteCreateCallback_negative_code_with_remote
    crepo cname curl payload w data o callback r ret :
  Get payload w = Some (as_cloneCallbackData data) →
  options data = Some o →
  RemoteCreateCallback o = Some callback →
  callback (borrowed_repo crepo w) (C_GoString cname) (C_GoString curl) = (Some r, ret) →
  (ret < 0)%Z →
  errorTarget data ≠ NULL →
  ∃ w', remoteCreateCallback crepo cname curl payload w = Ok (ErrorCodeUser, None) w'
        ∧ load_error (errorTarget data) w' = Some (errors_New (ErrorCode_String ret))
        ∧ pointerHandles w' = pointerHandles w.
Proof.
  intros Hget Hopts Hcb Hcall Hret Hnn.
  unfold remoteCreateCallback, borrowed_repo, Get in *. simpl in *.
  rewrite Hget. simpl. rewrite Hopts, Hcb, Hcall. simpl.
  destruct (Z.ltb_spec ret 0) as [_|Hge]; [|lia].
  unfold store_error. destruct (decide (errorTarget data = NULL)) as [|_]; [done|].
  simpl. eexists. split; [reflexivity|]. unfold load_error. simpl.
  rewrite lookup_insert_eq. split; reflexivity.
Qed.

(** ** Frame properties of the releases *)

Lemma C_free_frame p w :
  pointerHandles (C_free p w) = pointerHandles w
  ∧ errcells (C_free p w) = errcells w
  ∧ finalizers (C_free p w) = finalizers w
  ∧ trace (C_free p w) = trace w.
Proof. unfold C_free. destruct (decide (p = NULL)); done. Qed.

Lemma run_freeCheckoutOptions_frame co w :
  errcells (run_freeCheckoutOptions co w) = errcells w
  ∧ finalizers (run_freeCheckoutOptions co w) = finalizers w
  ∧ trace (run_freeCheckoutOptions co w) = trace w.
Proof.
  unfold run_freeCheckoutOptions, with_native.
  destruct (freeCheckoutOptions co (pointerHandles w, cheap w)) as [h c]. done.
Qed.

Lemma freeCloneOptions_frame ptr w :
  errcells (freeCloneOptions ptr w) = errcells w
  ∧ finalizers (freeCloneOptions ptr w) = finalizers w
  ∧ trace (freeCloneOptions ptr w) = trace w.
Proof.
  destruct ptr as [c|]; [|done]. unfold freeCloneOptions.
  destruct (run_freeCheckoutOptions_frame (checkout_opts c) w) as (He & Hf & Ht).
  set (w1 := run_freeCheckoutOptions (checkout_opts c) w) in *.
  set (w2 := if decide (remote_cb_payload c ≠ NULL) then Untrack (remote_cb_payload c) w1 else w1).
  assert (errcells w2 = errcells w1 ∧ finalizers w2 = finalizers w1 ∧ trace w2 = trace w1)
    as (He2 & Hf2 & Ht2) by (unfold w2; destruct (decide (remote_cb_payload c ≠ NULL)); done).
  destruct (C_free_frame (checkout_branch c) w2) as (_ & He3 & Hf3 & Ht3).
  rewrite He3, Hf3, Ht3, He2, Hf2, Ht2. done.
Qed.

(** The registry after [freeCloneOptions]: the checkout teardown has run,
    and the entry under the payload is gone exactly when the payload is set. *)
Lemma freeCloneOptions_registry c w :
  pointerHandles (freeCloneOptions (Some c) w)
  = (if decide (remote_cb_payload c ≠ NULL)
     then delete (remote_cb_payload c)
            (pointerHandles (run_freeCheckoutOptions (checkout_opts c) w))
     else pointerHandles (run_freeCheckoutOptions (checkout_opts c) w)).
Proof.
  unfold freeCloneOptions, C_free, Untrack.
  destruct (decide (checkout_branch c = NULL)), (decide (remote_cb_payload c ≠ NULL));
    reflexivity.
Qed.

(** ** The release function *)

(** The release function as the specification words it: it unregisters the
    handle when one was registered, frees the branch buffer when one was
    allocated, does nothing on a nil result, and leaves the sub-options of
    the checkout and fetch translators to their own teardown. *)
Definition releaseFn_spec (ptr : option git_clone_options) (w : World) : World :=
  match ptr with
  | None => w
  | Some c =>
    let w :=
      if decide (remote_cb_payload c ≠ NULL) then Untrack (remote_cb_payload c) w
      else w in
    C_free (checkout_branch c) w
  end.

(** ** The translator *)

(** The collaborators' share of a translation, lines 105 and 106: the
    checkout translator and then the fetch translator, each on the
    initialised sub-structure, applied to the registry and the C heap they
    are given.  Nothing runs on a nil configuration. *)
Definition run_sub_translators (opts : option CloneOptions) (errorTarget : pointer)
    (n : Native) : Native :=
  match opts with
  | None => n
  | Some o =>
    snd (populateFetchOptions git_fetch_options_init (FetchOptions o)
           (snd (populateCheckoutOptions git_checkout_options_init (CheckoutOpts o)
                   errorTarget n)))
  end.

(** Translation touches only the registry and the C heap, and never sets the
    branch field. *)
Lemma populateCloneOptions_frame opts errorTarget w :
  let r := populateCloneOptions opts errorTarget w in
  errcells (snd r) = errcells w
  ∧ finalizers (snd r) = finalizers w
  ∧ trace (snd r) = trace w
  ∧ match opts with
    | None => r = (None, w)
    | Some _ => ∃ c, fst r = Some c ∧ checkout_branch c = NULL
    end.
Proof.
  destruct opts as [o|]; [|done]. unfold populateCloneOptions, with_native. simpl.
  destruct (populateCheckoutOptions _ _ _ _) as [co [h1 c1]]. simpl.
  destruct (populateFetchOptions _ _ _) as [fo [h2 c2]]. simpl.
  destruct (RemoteCreateCallback o); simpl; eauto 10.
Qed.

(** Without a callback the hook and the payload stay unset and translation
    itself registers nothing: the registry it leaves is the one the two
    sub-translators left. *)
Lemma populateCloneOptions_without_callback o errorTarget w :
  RemoteCreateCallback o = None →
  ∃ c w', populateCloneOptions (Some o) errorTarget w = (Some c, w')
    ∧ remote_cb c = false
    ∧ remote_cb_payload c = NULL
    ∧ pointerHandles w'
      = fst (run_sub_translators (Some o) errorTarget (pointerHandles w, cheap w)).
Proof.
  intros Hcb. unfold populateCloneOptions, run_sub_translators, with_native. simpl.
  destruct (populateCheckoutOptions _ _ _ _) as [co [h1 c1]] eqn:Hco. simpl.
  destruct (populateFetchOptions _ _ _) as [fo [h2 c2]] eqn:Hfo. simpl.
  rewrite Hcb. eexists _, _. split; [reflexivity|]. simpl.
  split; [reflexivity|]. split; reflexivity.
Qed.

(** With a callback the hook is installed and the payload is a fresh token
    that resolves to the registration entry of this call. *)
Lemma populateCloneOptions_with_callback o errorTarget w callback :
  RemoteCreateCallback o = Some callback →
  ∃ c w', populateCloneOptions (Some o) errorTarget w = (Some c, w')
    ∧ remote_cb c = true
    ∧ remote_cb_payload c ≠ NULL
    ∧ Get (remote_cb_payload c) w'
      = Some (as_cloneCallbackData {| options := Some o; errorTarget := errorTarget |}).
Proof.
  intros Hcb. unfold populateCloneOptions, with_native. simpl.
  destruct (populateCheckoutOptions _ _ _ _) as [co [h1 c1]]. simpl.
  destruct (populateFetchOptions _ _ _) as [fo [h2 c2]]. simpl.
  rewrite Hcb. simpl. eexists _, _. split; [reflexivity|]. simpl.
  split; [reflexivity|]. split; [apply fresh_ptr_not_null|].
  unfold Get. simpl. apply lookup_insert_eq.
Qed.

(** The payload field is set exactly when translation registered an entry,
    that is when the configuration has a callback. *)
Lemma populateCloneOptions_payload_iff o errorTarget w c w' :
  populateCloneOptions (Some o) errorTarget w = (Some c, w') →
  remote_cb_payload c ≠ NULL ↔ is_Some (RemoteCreateCallback o).
Proof.
  intros Heq. destruct (RemoteCreateCallback o) as [callback|] eqn:Hcb.
  - destruct (populateCloneOptions_with_callback o errorTarget w callback Hcb)
      as (c0 & w0 & Heq0 & _ & Hpl & _).
    rewrite Heq in Heq0. injection Heq0 as <- <-. split; [eauto | done].
  - destruct (populateCloneOptions_without_callback o errorTarget w Hcb)
      as (c0 & w0 & Heq0 & _ & Hpl & _).
    rewrite Heq in Heq0. injection Heq0 as <- <-. split; [done|].
    intros [x Hx]. discriminate Hx.
Qed.

(** C4, as amended: [freeCloneOptions] does nothing on a nil pointer;
    otherwise it first runs the checkout translator's teardown on the
    checkout sub-options, then removes the registry entry exactly when the
    payload field is set, which is when translation registered one, and
    frees the branch buffer unless the field is NULL.  It never reads the
    fetch sub-options, and it leaves the error cells, the finalizers and the
    trace alone. *)
Theorem freeCloneOptions_releases (w : World) :
  freeCloneOptions None w = w
  ∧ (∀ o errorTarget w0 c w1,
       populateCloneOptions (Some o) errorTarget w0 = (Some c, w1) →
       remote_cb_payload c ≠ NULL ↔ is_Some (RemoteCreateCallback o))
  ∧ ∀ c : git_clone_options,
      let w1 := run_freeCheckoutOptions (checkout_opts c) w in
      freeCloneOptions (Some c) w = releaseFn_spec (Some c) w1
      ∧ pointerHandles (freeCloneOptions (Some c) w)
        = (if decide (remote_cb_payload c ≠ NULL)
           then delete (remote_cb_payload c) (pointerHandles w1)
           else pointerHandles w1)
      ∧ cheap (freeCloneOptions (Some c) w)
        = (if decide (checkout_branch c = NULL) then cheap w1
           else delete (checkout_branch c) (cheap w1))
      ∧ (errcells (freeCloneOptions (Some c) w) = errcells w
         ∧ finalizers (freeCloneOptions (Some c) w) = finalizers w
         ∧ trace (freeCloneOptions (Some c) w) = trace w)
      ∧ (∀ fo, freeCloneOptions
                 (Some {| checkout_opts := checkout_opts c; fetch_opts := fo;
                          bare := bare c; checkout_branch := checkout_branch c;
                          remote_cb := remote_cb c;
                          remote_cb_payload := remote_cb_payload c |}) w
               = freeCloneOptions (Some c) w).
Proof.
  split; [reflexivity|].
  split; [intros o errorTarget w0 c w1; apply populateCloneOptions_payload_iff|].
  intros c w1.
  split; [reflexivity|].
  split; [apply freeCloneOptions_registry|].
  split; [|split; [apply freeCloneOptions_frame | reflexivity]].
  unfold freeCloneOptions. fold w1. unfold C_free, Untrack.
  destruct (decide (checkout_branch c = NULL)), (decide (remote_cb_payload c ≠ NULL));
    reflexivity.
Qed.

(** ** The orchestrator *)

(** The three outcomes of lines 46 to 53. *)
Lemma Clone_return_cases ret ptr err w :
  ∃ v w', Clone_return ret ptr err w = Ok v w'
    ∧ pointerHandles w' = pointerHandles w
    ∧ trace w' = trace w
    ∧ (∀ e, ret = ErrorCodeUser → load_error err w = Some e → v = inr e)
    ∧ (¬ (ret = ErrorCodeUser ∧ load_error err w ≠ None) → (ret < 0)%Z →
       v = inr (MakeGitError ret))
    ∧ (¬ (ret = ErrorCodeUser ∧ load_error err w ≠ None) → (0 ≤ ret)%Z →
       ∃ repo, v = inl repo ∧ repo_ptr repo = ptr ∧ repo_addr repo ∈ finalizers w').
Proof.
  unfold Clone_return.
  destruct (decide (ret = ErrorCodeUser)) as [Heq|Hne].
  - destruct (load_error err w) as [e|] eqn:Hload.
    + eexists _, _. split; [reflexivity|]. split; [done|]. split; [done|].
      split; [congruence|]. split; intros []; done.
    + destruct (Z.ltb_spec ret 0) as [Hneg|Hpos]; simpl.
      * eexists _, _. split; [reflexivity|]. split; [done|]. split; [done|].
        split; [congruence|]. split; [done|]. intros; lia.
      * eexists _, _. split; [reflexivity|]. split; [done|]. split; [done|].
        split; [congruence|]. split; [intros; lia|].
        intros _ _. eexists. split; [reflexivity|]. split; [done|].
        simpl. apply elem_of_union_l, elem_of_singleton. done.
  - destruct (Z.ltb_spec ret 0) as [Hneg|Hpos]; simpl.
    + eexists _, _. split; [reflexivity|]. split; [done|]. split; [done|].
      split; [done|]. split; [done|]. intros; lia.
    + eexists _, _. split; [reflexivity|]. split; [done|]. split; [done|].
      split; [done|]. split; [intros; lia|].
      intros _ _. eexists. split; [reflexivity|]. split; [done|].
      simpl. apply elem_of_union_l, elem_of_singleton. done.
Qed.

(** Lines 46 to 53 change neither the registry, nor the C heap, nor an
    error cell. *)
Lemma Clone_return_keeps ret ptr err w :
  pointerHandles (world_of (Clone_return ret ptr err w)) = pointerHandles w
  ∧ cheap (world_of (Clone_return ret ptr err w)) = cheap w
  ∧ errcells (world_of (Clone_return ret ptr err w)) = errcells w.
Proof.
  unfold Clone_return.
  destruct (if decide (ret = ErrorCodeUser) then load_error err w else None); [done|].
  destruct (ret <? 0)%Z; done.
Qed.

(** C1: how [Clone] interprets the code [ret] the native clone primitive
    returns.  The premises follow the call line by line up to the native
    primitive; [w6] is the state in which it returns.  The captured error wins
    when the code is the sentinel; otherwise a negative code gives the error
    of the standard mapping; otherwise the native repository pointer is
    wrapped in a handle that owns it (its finalizer is set). *)
Theorem Clone_interprets_return_code
    url path o w curl w1 cpath w2 err w3 cOptions w4 cOptions' w5 ret ptr w6 :
  C_CString url w = (curl, w1) →
  C_CString path w1 = (cpath, w2) →
  new_error w2 = (err, w3) →
  populateCloneOptions (Some o) err w3 = (cOptions, w4) →
  set_checkout_branch (CheckoutBranch o) cOptions w4 = Ok cOptions' w5 →
  C_git_clone curl cpath cOptions' w5 = Ok (ret, ptr) w6 →
  ∃ v w', Clone url path (Some o) w = Ok v w'
    ∧ (∀ e, ret = ErrorCodeUser → load_error err w6 = Some e → v = inr e)
    ∧ (¬ (ret = ErrorCodeUser ∧ load_error err w6 ≠ None) → (ret < 0)%Z →
       v = inr (MakeGitError ret))
    ∧ (¬ (ret = ErrorCodeUser ∧ load_error err w6 ≠ None) → (0 ≤ ret)%Z →
       ∃ repo, v = inl repo ∧ repo_ptr repo = ptr ∧ repo_addr repo ∈ finalizers w').
Proof.
  intros H1 H2 H3 H4 H5 H6.
  destruct (Clone_return_cases ret ptr err w6) as (v & w7 & Hret & _ & _ & Ha & Hb & Hc).
  unfold Clone. rewrite H1, H2, H3, H4, H5, H6. simpl. rewrite Hret. simpl.
  eexists _, _. split; [reflexivity|]. split; [exact Ha|]. split; [exact Hb|].
  intros Hn Hpos. destruct (Hc Hn Hpos) as (repo & Hv & Hp & Hfin).
  exists repo. split; [done|]. split; [done|].
  destruct (C_free_frame curl (C_free cpath (freeCloneOptions cOptions' w7)))
    as (_ & _ & -> & _).
  destruct (C_free_frame cpath (freeCloneOptions cOptions' w7)) as (_ & _ & -> & _).
  destruct (freeCloneOptions_frame cOptions' w7) as (_ & -> & _). exact Hfin.
Qed.

(** A deferred call or a continuation that keeps a component of the state
    keeps it over the whole call. *)
Lemma world_of_defer_ {A X} (π : World → X) (f : World → World) (r : Result A) :
  (∀ w, π (f w) = π w) → π (world_of (defer_ f r)) = π (world_of r).
Proof. intros Hf. destruct r as [a w|[msg|msg] w]; simpl; auto. Qed.

Lemma world_of_bind {A B X} (π : World → X) (r : Result A) (k : A → World → Result B) :
  (∀ a w, π (world_of (k a w)) = π w) → π (world_of (bind r k)) = π (world_of r).
Proof. intros Hk. destruct r as [a w|e w]; simpl; auto. Qed.

Lemma length_empty_string (s : string) : String.length s = 0 ↔ s = "".
Proof. destruct s; simpl; split; congruence. Qed.

(** The branch override on a translated structure: only the branch field
    changes, and only when the branch name is not empty; it then points to a
    new buffer holding the name. *)
Lemma set_checkout_branch_Some branch c w :
  ∃ c' w', set_checkout_branch branch (Some c) w = Ok (Some c') w'
    ∧ (checkout_opts c' = checkout_opts c ∧ fetch_opts c' = fetch_opts c
       ∧ bare c' = bare c ∧ remote_cb c' = remote_cb c
       ∧ remote_cb_payload c' = remote_cb_payload c)
    ∧ (pointerHandles w' = pointerHandles w ∧ errcells w' = errcells w
       ∧ finalizers w' = finalizers w ∧ trace w' = trace w)
    ∧ (branch ≠ "" →
       checkout_branch c' ≠ NULL ∧ cheap w' !! checkout_branch c' = Some branch)
    ∧ (branch = "" → c' = c ∧ w' = w).
Proof.
  unfold set_checkout_branch.
  destruct (decide (String.length branch ≠ 0)) as [Hlen|Hlen].
  - simpl. eexists _, _. split; [reflexivity|]. simpl.
    split; [done|]. split; [done|]. split.
    + intros _. split; [apply fresh_ptr_not_null | apply lookup_insert_eq].
    + intros ->. done.
  - exists c, w. split; [reflexivity|]. split; [done|]. split; [done|].
    apply dec_stable in Hlen. apply length_empty_string in Hlen. split; done.
Qed.

(** The trampoline logs its entry and nothing else. *)
Lemma remoteCreateCallback_trace crepo cname curl payload w :
  trace (world_of (remoteCreateCallback crepo cname curl payload w))
  = (trace w ++ [EvTrampoline payload])%list.
Proof.
  unfold remoteCreateCallback. simpl.
  destruct (assert_cloneCallbackData _) as [data|]; [|done].
  destruct (options data) as [o|]; [|done].
  destruct (RemoteCreateCallback o) as [callback|]; [|done].
  destruct (callback _ _ _) as [[r|] ret]; simpl; [|done].
  destruct (ret <? 0)%Z; [|done].
  unfold store_error. destruct (decide (errorTarget data = NULL)); done.
Qed.

(** Whether the hook is installed in the options handed to the engine. *)
Definition hook_installed (cOptions : option git_clone_options) : bool :=
  match cOptions with
  | Some c => remote_cb c
  | None => false
  end.

(** The native call is logged once, with its arguments and the C heap at
    that point; without the hook the engine returns without entering the
    trampoline and the registry is as it was. *)
Lemma C_git_clone_trace curl cpath cOptions w :
  ∃ rest,
    trace (world_of (C_git_clone curl cpath cOptions w))
    = (trace w ++ EvNativeClone curl cpath cOptions (cheap w) :: rest)%list
    ∧ (hook_installed cOptions = false →
       rest = []
       ∧ pointerHandles (world_of (C_git_clone curl cpath cOptions w)) = pointerHandles w
       ∧ ∃ ret ptr w', C_git_clone curl cpath cOptions w = Ok (ret, ptr) w').
Proof.
  unfold C_git_clone.
  destruct (git_clone _ _ _ _) as [ret out|crepo cname curl' dflt k].
  { exists []. simpl. split; [done|]. intros _. split; [done|]. split; [done|]. eauto. }
  destruct cOptions as [c|]; simpl.
  - destruct (remote_cb c) eqn:Hcb.
    + exists [EvTrampoline (remote_cb_payload c)]. split; [|done].
      rewrite (world_of_bind trace).
      * rewrite remoteCreateCallback_trace. simpl. rewrite <- app_assoc. done.
      * intros [code cremote] w0. done.
    + exists []. simpl. split; [done|]. intros _. split; [done|]. split; [done|].
      destruct (k _ _) as [ret ptr]. eauto.
  - exists []. simpl. split; [done|]. intros _. split; [done|]. split; [done|].
    destruct (k _ _) as [ret ptr]. eauto.
Qed.

(** [Clone] on the nil configuration stops at line 36, with the trace and
    the registry as they were. *)
Lemma Clone_on_nil_options url path w :
  ∃ w', Clone url path None w = Abort (GoPanic nil_dereference) w'
    ∧ trace w' = trace w
    ∧ pointerHandles w' = pointerHandles w.
Proof.
  unfold Clone. simpl. eexists. split; [reflexivity|].
  unfold C_free. repeat case_decide; done.
Qed.

(** C3 (what the code does on an absent configuration): translation handles
    the nil configuration and returns the nil pointer, and the release
    function accepts it, but line 36 of [Clone] reads [CheckoutBranch] through
    the nil pointer: the call panics before the native clone primitive is
    invoked. *)
Theorem Clone_nil_options_panics url path w :
  (∀ errorTarget w0, populateCloneOptions None errorTarget w0 = (None, w0))
  ∧ (∀ w0, freeCloneOptions None w0 = w0)
  ∧ aborts (Clone url path None w)
  ∧ ∃ w', Clone url path None w = Abort (GoPanic nil_dereference) w'
      ∧ trace w' = trace w
      ∧ pointerHandles w' = pointerHandles w.
Proof.
  split; [done|]. split; [done|].
  destruct (Clone_on_nil_options url path w) as (w' & Heq & Htr & Hreg).
  rewrite Heq. split; [exact I|]. exists w'. done.
Qed.

(** The first four lines of [Clone] touch neither the trace nor, apart from
    the translators, the registry. *)
Lemma Clone_prefix_frame url path w curl w1 cpath w2 err w3 :
  C_CString url w = (curl, w1) →
  C_CString path w1 = (cpath, w2) →
  new_error w2 = (err, w3) →
  trace w3 = trace w ∧ pointerHandles w3 = pointerHandles w.
Proof.
  unfold C_CString, new_error. intros [= _ <-] [= _ <-] [= _ <-]. done.
Qed.

(** The one native call of [Clone] on a present configuration: it is made on
    the translated structure after the branch override, in the state the
    override leaves. *)
Lemma Clone_native_call url path o w curl w1 cpath w2 err w3 c w4 c' w5 :
  C_CString url w = (curl, w1) →
  C_CString path w1 = (cpath, w2) →
  new_error w2 = (err, w3) →
  populateCloneOptions (Some o) err w3 = (Some c, w4) →
  set_checkout_branch (CheckoutBranch o) (Some c) w4 = Ok (Some c') w5 →
  ∃ rest,
    trace (world_of (Clone url path (Some o) w))
    = (trace w ++ EvNativeClone curl cpath (Some c') (cheap w5) :: rest)%list
    ∧ (remote_cb c' = false → rest = []).
Proof.
  intros H1 H2 H3 H4 H5.
  destruct (set_checkout_branch_Some (CheckoutBranch o) c w4)
    as (c2 & w5' & H5' & _ & (_ & _ & _ & Htr5) & _).
  rewrite H5 in H5'. injection H5' as <- <-.
  destruct (C_git_clone_trace curl cpath (Some c') w5) as (rest & Htr6 & Hnohook).
  exists rest. split; [|intros Hcb; by destruct (Hnohook Hcb)].
  destruct (Clone_prefix_frame _ _ _ _ _ _ _ _ _ H1 H2 H3) as (Htr3 & _).
  pose proof (populateCloneOptions_frame (Some o) err w3) as (_ & _ & Htr4 & _).
  rewrite H4 in Htr4. simpl in Htr4.
  unfold Clone. rewrite H1, H2, H3, H4, H5.
  rewrite (world_of_defer_ trace); [|intros; apply C_free_frame].
  rewrite (world_of_defer_ trace); [|intros; apply C_free_frame].
  rewrite (world_of_defer_ trace); [|intros; apply freeCloneOptions_frame].
  rewrite (world_of_bind trace).
  - rewrite Htr6, Htr5, Htr4, Htr3. done.
  - intros [ret ptr] w0.
    destruct (Clone_return_cases ret ptr err w0) as (v & w' & -> & _ & Ht & _). done.
Qed.

(** C5: the branch override.  Whatever the translators produced, [Clone]
    invokes the native clone primitive once on the translated structure with
    only its branch field replaced: for a non-empty [CheckoutBranch] the
    field points to a buffer of the C heap holding that string; for an empty
    one the structure is the one translation produced. *)
Theorem Clone_checkout_branch_override
    url path o w curl w1 cpath w2 err w3 c w4 :
  C_CString url w = (curl, w1) →
  C_CString path w1 = (cpath, w2) →
  new_error w2 = (err, w3) →
  populateCloneOptions (Some o) err w3 = (Some c, w4) →
  ∃ c' w5 rest,
    set_checkout_branch (CheckoutBranch o) (Some c) w4 = Ok (Some c') w5
    ∧ trace (world_of (Clone url path (Some o) w))
      = (trace w ++ EvNativeClone curl cpath (Some c') (cheap w5) :: rest)%list
    ∧ (CheckoutBranch o ≠ "" →
       checkout_branch c' ≠ NULL
       ∧ cheap w5 !! checkout_branch c' = Some (CheckoutBranch o))
    ∧ (CheckoutBranch o = "" → c' = c ∧ w5 = w4)
    ∧ (checkout_opts c' = checkout_opts c ∧ fetch_opts c' = fetch_opts c
       ∧ bare c' = bare c ∧ remote_cb c' = remote_cb c
       ∧ remote_cb_payload c' = remote_cb_payload c).
Proof.
  intros H1 H2 H3 H4.
  destruct (set_checkout_branch_Some (CheckoutBranch o) c w4)
    as (c' & w5 & H5 & Hfields & _ & Hne & Hempty).
  destruct (Clone_native_call _ _ _ _ _ _ _ _ _ _ _ _ _ _ H1 H2 H3 H4 H5)
    as (rest & Htr & _).
  exists c', w5, rest. done.
Qed.





(** ** Further properties: what the trampoline leaves alone *)

(** The outcome is a fatal error of the runtime: the process has ended and
    no deferred call has run. *)
Definition fatal {A} (r : Result A) : Prop :=
  match r with
  | Abort (FatalThrow _) _ => True
  | _ => False
  end.

Lemma defer_not_fatal {A} (f : World → World) (r : Result A) :
  ¬ fatal (defer_ f r) → ¬ fatal r ∧ world_of (defer_ f r) = f (world_of r).
Proof.
  destruct r as [a w|[msg|msg] w]; simpl; intros Hnf;
    [split; auto | split; auto | destruct Hnf; exact I].
Qed.

(** The trampoline reads the registry and never writes it, and it does not
    touch the C heap. *)
Lemma remoteCreateCallback_keeps crepo cname curl payload w :
  pointerHandles (world_of (remoteCreateCallback crepo cname curl payload w))
  = pointerHandles w
  ∧ cheap (world_of (remoteCreateCallback crepo cname curl payload w)) = cheap w.
Proof.
  unfold remoteCreateCallback. simpl.
  destruct (assert_cloneCallbackData _) as [data|]; [|done].
  destruct (options data) as [o|]; [|done].
  destruct (RemoteCreateCallback o) as [callback|]; [|done].
  destruct (callback _ _ _) as [[r|] ret]; simpl; [|done].
  destruct (ret <? 0)%Z; [|done].
  unfold store_error. destruct (decide (errorTarget data = NULL)); done.
Qed.

(** X1: whatever the payload and whatever the callback does, the trampoline
    leaves the repository wrapper it built without a finalizer (the engine
    keeps the repository), sets no finalizer on anything, and changes neither
    the registry nor the C heap. *)
Theorem remoteCreateCallback_borrows_repository crepo cname curl payload w :
  (repo_addr (borrowed_repo crepo w)
     ∉ finalizers (world_of (remoteCreateCallback crepo cname curl payload w)))
  ∧ (finalizers (world_of (remoteCreateCallback crepo cname curl payload w))
     ⊆ finalizers w)
  ∧ pointerHandles (world_of (remoteCreateCallback crepo cname curl payload w))
    = pointerHandles w
  ∧ cheap (world_of (remoteCreateCallback crepo cname curl payload w)) = cheap w.
Proof.
  split; [|split; [|apply remoteCreateCallback_keeps]].
  - unfold remoteCreateCallback, borrowed_repo. simpl.
    set (a := fresh_ptr (goheap w)).
    assert (∀ F : gset N, a ∉ ({[a]} ∪ F) ∖ {[a]}) as Ha.
    { intros F [_ Hn]%elem_of_difference. apply Hn, elem_of_singleton. reflexivity. }
    assert (∀ (F : gset N) b, a ∉ (({[a]} ∪ F) ∖ {[a]}) ∖ {[b]}) as Hb.
    { intros F b [Hin _]%elem_of_difference. exact (Ha F Hin). }
    destruct (assert_cloneCallbackData _) as [data|]; [|apply Ha].
    destruct (options data) as [o|]; [|apply Ha].
    destruct (RemoteCreateCallback o) as [callback|]; [|apply Ha].
    destruct (callback _ _ _) as [[r|] ret]; simpl; [|apply Ha].
    destruct (ret <? 0)%Z; [|apply Hb].
    unfold store_error. destruct (decide (errorTarget data = NULL)); apply Hb.
  - unfold remoteCreateCallback. simpl.
    set (a := fresh_ptr (goheap w)).
    assert (({[a]} ∪ finalizers w) ∖ {[a]} ⊆ finalizers w) as Ha.
    { intros x [[Hx|Hx]%elem_of_union Hn]%elem_of_difference; [done | exact Hx]. }
    assert (∀ b, (({[a]} ∪ finalizers w) ∖ {[a]}) ∖ {[b]} ⊆ finalizers w) as Hb.
    { intros b x [Hx _]%elem_of_difference. exact (Ha x Hx). }
    destruct (assert_cloneCallbackData _) as [data|]; [|apply Ha].
    destruct (options data) as [o|]; [|apply Ha].
    destruct (RemoteCreateCallback o) as [callback|]; [|apply Ha].
    destruct (callback _ _ _) as [[r|] ret]; simpl; [|apply Ha].
    destruct (ret <? 0)%Z; [|apply Hb].
    unfold store_error. destruct (decide (errorTarget data = NULL)); apply Hb.
Qed.

(** X2: the error-capture branch of the trampoline, reached with a negative
    code and a remote.  The error built from the text of the code replaces
    the content of the slot and of no other error cell, the sentinel is
    returned and nothing is written through the output parameter; the
    finalizer of the remote has been cleared all the same. *)
Theorem remoteCreateCallback_captures_error
    crepo cname curl payload w data o callback r ret :
  Get payload w = Some (as_cloneCallbackData data) →
  options data = Some o →
  RemoteCreateCallback o = Some callback →
  callback (borrowed_repo crepo w) (C_GoString cname) (C_GoString curl) = (Some r, ret) →
  (ret < 0)%Z →
  errorTarget data ≠ NULL →
  ∃ w', remoteCreateCallback crepo cname curl payload w = Ok (ErrorCodeUser, None) w'
    ∧ errcells w'
      = <[errorTarget data := Some (errors_New (ErrorCode_String ret))]> (errcells w)
    ∧ (remote_addr r ∉ finalizers w').
Proof.
  intros Hget Hopts Hcb Hcall Hret Hnn.
  unfold remoteCreateCallback, borrowed_repo, Get in *. simpl in *.
  rewrite Hget. simpl. rewrite Hopts, Hcb, Hcall. simpl.
  destruct (Z.ltb_spec ret 0) as [_|Hge]; [|lia].
  unfold store_error. destruct (decide (errorTarget data = NULL)) as [|_]; [done|].
  simpl. eexists. split; [reflexivity|]. simpl. split; [reflexivity|].
  intros [_ Hn]%elem_of_difference. apply Hn, elem_of_singleton. reflexivity.
Qed.

(** X3: with a negative code, a remote and a nil error target in the
    registration entry, the trampoline panics on the store through the nil
    pointer, and no error cell changes. *)
Theorem remoteCreateCallback_nil_error_target_panics
    crepo cname curl payload w data o callback r ret :
  Get payload w = Some (as_cloneCallbackData data) →
  options data = Some o →
  RemoteCreateCallback o = Some callback →
  callback (borrowed_repo crepo w) (C_GoString cname) (C_GoString curl) = (Some r, ret) →
  (ret < 0)%Z →
  errorTarget data = NULL →
  ∃ w', remoteCreateCallback crepo cname curl payload w
          = Abort (GoPanic nil_dereference) w'
    ∧ errcells w' = errcells w.
Proof.
  intros Hget Hopts Hcb Hcall Hret Hnull.
  unfold remoteCreateCallback, borrowed_repo, Get in *. simpl in *.
  rewrite Hget. simpl. rewrite Hopts, Hcb, Hcall. simpl.
  destruct (Z.ltb_spec ret 0) as [_|Hge]; [|lia].
  unfold store_error. destruct (decide (errorTarget data = NULL)) as [_|]; [|done].
  simpl. eexists. split; reflexivity.
Qed.

(** ** Further properties: what [Clone] releases *)

Lemma C_git_clone_keeps curl cpath cOptions w :
  pointerHandles (world_of (C_git_clone curl cpath cOptions w)) = pointerHandles w
  ∧ cheap (world_of (C_git_clone curl cpath cOptions w)) = cheap w.
Proof.
  unfold C_git_clone.
  destruct (git_clone _ _ _ _) as [ret out|crepo cname curl' dflt k]; [done|].
  destruct cOptions as [c|]; [|done].
  destruct (remote_cb c); [|done].
  rewrite (world_of_bind pointerHandles), (world_of_bind cheap);
    [|intros [code cremote] w0; done..].
  destruct (remoteCreateCallback_keeps crepo cname curl' (remote_cb_payload c)
              (log (EvNativeClone curl cpath (Some c) (cheap w)) w)) as [-> ->].
  done.
Qed.

(** Between the branch override and the deferred releases, neither the
    registry nor the C heap changes. *)
Lemma Clone_body_keeps curl cpath cOptions err w :
  pointerHandles
    (world_of (bind (C_git_clone curl cpath cOptions w)
                    (λ '(ret, ptr) w, Clone_return ret ptr err w)))
  = pointerHandles w
  ∧ cheap
      (world_of (bind (C_git_clone curl cpath cOptions w)
                      (λ '(ret, ptr) w, Clone_return ret ptr err w)))
    = cheap w.
Proof.
  rewrite (world_of_bind pointerHandles), (world_of_bind cheap);
    [apply C_git_clone_keeps | intros [ret ptr] w0; apply Clone_return_keeps..].
Qed.

(** The two outer deferred releases wrap everything else. *)
Lemma Clone_outer url path options w curl w1 cpath w2 :
  C_CString url w = (curl, w1) →
  C_CString path w1 = (cpath, w2) →
  ∃ body, Clone url path options w
          = defer_ (C_free curl) (defer_ (C_free cpath) body).
Proof. intros H1 H2. unfold Clone. rewrite H1, H2. eexists. reflexivity. Qed.

(** The state a call on a present configuration ends in, when the process
    survives it: the three releases applied to a state that has the registry
    and the C heap of the native call. *)
Lemma Clone_Some_final url path o w curl w1 cpath w2 err w3 c w4 c' w5 :
  C_CString url w = (curl, w1) →
  C_CString path w1 = (cpath, w2) →
  new_error w2 = (err, w3) →
  populateCloneOptions (Some o) err w3 = (Some c, w4) →
  set_checkout_branch (CheckoutBranch o) (Some c) w4 = Ok (Some c') w5 →
  ¬ fatal (Clone url path (Some o) w) →
  ∃ wb, world_of (Clone url path (Some o) w)
        = C_free curl (C_free cpath (freeCloneOptions (Some c') wb))
    ∧ pointerHandles wb = pointerHandles w5
    ∧ cheap wb = cheap w5.
Proof.
  intros H1 H2 H3 H4 H5. unfold Clone. rewrite H1, H2, H3, H4, H5. intros Hnf.
  apply defer_not_fatal in Hnf as [Hnf ->].
  apply defer_not_fatal in Hnf as [Hnf ->].
  apply defer_not_fatal in Hnf as [_ ->].
  eexists. split; [reflexivity|]. apply Clone_body_keeps.
Qed.

Lemma fresh_ptr_lookup {A} (m : gmap N A) : m !! fresh_ptr (dom m) = None.
Proof. apply not_elem_of_dom, fresh_ptr_not_live. Qed.

Lemma freeCloneOptions_heap c w :
  cheap (freeCloneOptions (Some c) w)
  = (if decide (checkout_branch c = NULL)
     then cheap (run_freeCheckoutOptions (checkout_opts c) w)
     else delete (checkout_branch c)
            (cheap (run_freeCheckoutOptions (checkout_opts c) w))).
Proof.
  unfold freeCloneOptions, C_free, Untrack.
  destruct (decide (checkout_branch c = NULL)), (decide (remote_cb_payload c ≠ NULL));
    reflexivity.
Qed.

(** X4: on every call that the process survives, with or without a
    configuration, returning or panicking, the buffers [Clone] allocated for
    the url and the path are different non-NULL buffers that held the two
    strings and are no longer live at the end. *)
Theorem Clone_frees_url_and_path_buffers url path options w curl w1 cpath w2 :
  C_CString url w = (curl, w1) →
  C_CString path w1 = (cpath, w2) →
  ¬ fatal (Clone url path options w) →
  (curl ≠ NULL ∧ cpath ≠ NULL ∧ curl ≠ cpath)
  ∧ (cheap w2 !! curl = Some url ∧ cheap w2 !! cpath = Some path)
  ∧ cheap (world_of (Clone url path options w)) !! curl = None
  ∧ cheap (world_of (Clone url path options w)) !! cpath = None.
Proof.
  intros H1 H2 Hnf.
  destruct (Clone_outer url path options w _ _ _ _ H1 H2) as [body Heq].
  rewrite Heq in *.
  apply defer_not_fatal in Hnf as [Hnf ->].
  apply defer_not_fatal in Hnf as [_ ->].
  unfold C_CString in H1, H2. injection H1 as <- <-. injection H2 as <- <-. simpl.
  set (curl := fresh_ptr (dom (cheap w))).
  set (cpath := fresh_ptr (dom (<[curl:=url]> (cheap w)))).
  assert (curl ≠ NULL) as Hc by apply fresh_ptr_not_null.
  assert (cpath ≠ NULL) as Hp by apply fresh_ptr_not_null.
  assert (curl ≠ cpath) as Hne.
  { intros Heq'. pose proof (fresh_ptr_lookup (<[curl:=url]> (cheap w))) as Hf.
    fold cpath in Hf. rewrite <- Heq', lookup_insert_eq in Hf. discriminate. }
  split; [done|]. split.
  { split; [|apply lookup_insert_eq].
    rewrite lookup_insert_ne by (intros ?; by apply Hne). apply lookup_insert_eq. }
  unfold C_free. destruct (decide (curl = NULL)) as [|_]; [done|].
  destruct (decide (cpath = NULL)) as [|_]; [done|]. simpl.
  split; apply lookup_delete_None; [by left|].
  right. apply lookup_delete_None. by left.
Qed.

Lemma C_free_absent p q w :
  cheap w !! q = None → cheap (C_free p w) !! q = None.
Proof.
  intros Hq. unfold C_free. destruct (decide (p = NULL)); [done|]. simpl.
  apply lookup_delete_None. by right.
Qed.

Lemma freeCloneOptions_branch_gone c w :
  checkout_branch c ≠ NULL →
  cheap (freeCloneOptions (Some c) w) !! checkout_branch c = None.
Proof.
  intros Hnn. rewrite freeCloneOptions_heap.
  destruct (decide (checkout_branch c = NULL)) as [|_]; [done|].
  apply lookup_delete_None. by left.
Qed.

(** X5: the buffer of a non-empty branch override is new, is live and holds
    the branch name when the native clone primitive is invoked, and is no
    longer live at the end of a call that the process survives. *)
Theorem Clone_frees_branch_buffer url path o w curl w1 cpath w2 err w3 c w4 c' w5 :
  C_CString url w = (curl, w1) →
  C_CString path w1 = (cpath, w2) →
  new_error w2 = (err, w3) →
  populateCloneOptions (Some o) err w3 = (Some c, w4) →
  set_checkout_branch (CheckoutBranch o) (Some c) w4 = Ok (Some c') w5 →
  CheckoutBranch o ≠ "" →
  ¬ fatal (Clone url path (Some o) w) →
  cheap w4 !! checkout_branch c' = None
  ∧ cheap w5 !! checkout_branch c' = Some (CheckoutBranch o)
  ∧ cheap (world_of (Clone url path (Some o) w)) !! checkout_branch c' = None.
Proof.
  intros H1 H2 H3 H4 H5 Hbranch Hnf.
  destruct (Clone_Some_final _ _ _ _ _ _ _ _ _ _ _ _ _ _ H1 H2 H3 H4 H5 Hnf)
    as (wb & -> & _ & _).
  destruct (set_checkout_branch_Some (CheckoutBranch o) c w4)
    as (c2 & w5' & H5' & _ & _ & Hne & _).
  rewrite H5 in H5'. injection H5' as <- <-.
  destruct (Hne Hbranch) as [Hnn Hlive].
  split; [|split; [exact Hlive|]].
  - unfold set_checkout_branch in H5.
    destruct (decide (String.length (CheckoutBranch o) ≠ 0)) as [_|Hlen].
    + simpl in H5. injection H5 as <- _. simpl. apply fresh_ptr_lookup.
    + apply dec_stable in Hlen. by apply length_empty_string in Hlen.
  - apply C_free_absent, C_free_absent, freeCloneOptions_branch_gone, Hnn.
Qed.

(** The collaborators leave the C heap, respectively the registry, as they
    found it: the case of sub-configurations that need no buffer of their own
    and register no callback. *)
Definition sub_translators_keep_C_heap : Prop :=
  (∀ co opts e n, snd (snd (populateCheckoutOptions co opts e n)) = snd n)
  ∧ (∀ fo opts n, snd (snd (populateFetchOptions fo opts n)) = snd n)
  ∧ (∀ co n, snd (freeCheckoutOptions co n) = snd n).

Definition sub_translators_keep_registry : Prop :=
  (∀ co opts e n, fst (snd (populateCheckoutOptions co opts e n)) = fst n)
  ∧ (∀ fo opts n, fst (snd (populateFetchOptions fo opts n)) = fst n)
  ∧ (∀ co n, fst (freeCheckoutOptions co n) = fst n).

Lemma populateCloneOptions_heap opts errorTarget w :
  sub_translators_keep_C_heap →
  cheap (snd (populateCloneOptions opts errorTarget w)) = cheap w.
Proof.
  intros (Hc & Hf & _). destruct opts as [o|]; [|done].
  unfold populateCloneOptions, with_native. simpl.
  specialize (Hc git_checkout_options_init (CheckoutOpts o) errorTarget
                 (pointerHandles w, cheap w)).
  destruct (populateCheckoutOptions _ _ _ _) as [co [h1 c1]]. simpl in *.
  specialize (Hf git_fetch_options_init (FetchOptions o) (h1, c1)).
  destruct (populateFetchOptions _ _ _) as [fo [h2 c2]]. simpl in *.
  destruct (RemoteCreateCallback o); simpl; congruence.
Qed.

Lemma run_freeCheckoutOptions_heap co w :
  sub_translators_keep_C_heap → cheap (run_freeCheckoutOptions co w) = cheap w.
Proof.
  intros (_ & _ & Hfree). unfold run_freeCheckoutOptions, with_native.
  specialize (Hfree co (pointerHandles w, cheap w)).
  destruct (freeCheckoutOptions co (pointerHandles w, cheap w)) as [h c]. exact Hfree.
Qed.

Lemma run_freeCheckoutOptions_registry co w :
  sub_translators_keep_registry →
  pointerHandles (run_freeCheckoutOptions co w) = pointerHandles w.
Proof.
  intros (_ & _ & Hfree). unfold run_freeCheckoutOptions, with_native.
  specialize (Hfree co (pointerHandles w, cheap w)).
  destruct (freeCheckoutOptions co (pointerHandles w, cheap w)) as [h c]. exact Hfree.
Qed.

(** What translation does to the registry when the sub-translators keep it:
    nothing without a callback; with one, a single entry under a token that
    was free. *)
Lemma populateCloneOptions_registry o errorTarget w c w' :
  sub_translators_keep_registry →
  populateCloneOptions (Some o) errorTarget w = (Some c, w') →
  (remote_cb_payload c = NULL ∧ pointerHandles w' = pointerHandles w)
  ∨ (remote_cb_payload c ≠ NULL
     ∧ pointerHandles w !! remote_cb_payload c = None
     ∧ pointerHandles w'
       = <[remote_cb_payload c :=
             as_cloneCallbackData {| options := Some o; errorTarget := errorTarget |}]>
           (pointerHandles w)).
Proof.
  intros (Hc & Hf & _). unfold populateCloneOptions, with_native. simpl.
  specialize (Hc git_checkout_options_init (CheckoutOpts o) errorTarget
                 (pointerHandles w, cheap w)).
  destruct (populateCheckoutOptions _ _ _ _) as [co [h1 c1]]. simpl in *.
  specialize (Hf git_fetch_options_init (FetchOptions o) (h1, c1)).
  destruct (populateFetchOptions _ _ _) as [fo [h2 c2]]. simpl in *.
  subst h1 h2.
  destruct (RemoteCreateCallback o); simpl; intros [= <- <-]; simpl.
  - right. split; [apply fresh_ptr_not_null|]. split; [apply fresh_ptr_lookup | done].
  - left. done.
Qed.

Lemma C_free_undoes_C_CString s w p w' w'' :
  C_CString s w = (p, w') → cheap w'' = cheap w' → cheap (C_free p w'') = cheap w.
Proof.
  unfold C_CString. intros [= <- <-] Heq. unfold C_free.
  destruct (decide (fresh_ptr (dom (cheap w)) = NULL)) as [Hn|_].
  { by apply fresh_ptr_not_null in Hn. }
  simpl. rewrite Heq. simpl. apply delete_insert_id, fresh_ptr_lookup.
Qed.

(** The branch override either changes nothing or allocates the buffer the
    branch field then points to. *)
Lemma set_checkout_branch_alloc branch c w c' w' :
  set_checkout_branch branch (Some c) w = Ok (Some c') w' →
  (checkout_branch c' = checkout_branch c ∧ w' = w)
  ∨ C_CString branch w = (checkout_branch c', w').
Proof.
  unfold set_checkout_branch.
  destruct (decide (String.length branch ≠ 0)).
  - destruct (C_CString branch w) as [p w0]. intros [= <- <-]. by right.
  - intros [= <- <-]. by left.
Qed.

(** X6: [Clone] leaves the C heap exactly as it found it on every call that
    the process survives, when the sub-translators and the checkout teardown
    leave the C heap alone: each buffer it allocates (url, path, branch) is
    freed, and it frees nothing else. *)
Theorem Clone_restores_C_heap url path options w :
  sub_translators_keep_C_heap →
  ¬ fatal (Clone url path options w) →
  cheap (world_of (Clone url path options w)) = cheap w.
Proof.
  intros Hkeep Hnf.
  destruct (C_CString url w) as [curl w1] eqn:H1.
  destruct (C_CString path w1) as [cpath w2] eqn:H2.
  destruct (new_error w2) as [err w3] eqn:H3.
  assert (cheap w3 = cheap w2) as Hw3
    by (unfold new_error in H3; by injection H3 as _ <-).
  destruct options as [o|].
  - destruct (populateCloneOptions_frame (Some o) err w3) as (_ & _ & _ & c & Hc & Hbr).
    destruct (populateCloneOptions (Some o) err w3) as [c0 w4] eqn:H4.
    simpl in Hc. subst c0.
    destruct (set_checkout_branch_Some (CheckoutBranch o) c w4)
      as (c' & w5 & H5 & _).
    destruct (Clone_Some_final _ _ _ _ _ _ _ _ _ _ _ _ _ _ H1 H2 H3 H4 H5 Hnf)
      as (wb & -> & _ & Hwb).
    apply (C_free_undoes_C_CString _ _ _ _ _ H1).
    apply (C_free_undoes_C_CString _ _ _ _ _ H2).
    rewrite <- Hw3.
    pose proof (populateCloneOptions_heap (Some o) err w3 Hkeep) as Hw4.
    rewrite H4 in Hw4. simpl in Hw4. rewrite <- Hw4.
    rewrite freeCloneOptions_heap, run_freeCheckoutOptions_heap, Hwb by done.
    destruct (set_checkout_branch_alloc _ _ _ _ _ H5) as [[Hsame ->]|Halloc].
    + rewrite Hsame, Hbr. by destruct (decide (NULL = NULL)).
    + pose proof (C_free_undoes_C_CString _ _ _ _ w5 Halloc eq_refl) as Hfree.
      unfold C_free in Hfree.
      destruct (decide (checkout_branch c' = NULL)) as [Hn|_]; [|exact Hfree].
      unfold C_CString in Halloc. injection Halloc as Hp _.
      rewrite <- Hp in Hn. by apply fresh_ptr_not_null in Hn.
  - revert Hnf. unfold Clone. rewrite H1, H2, H3. simpl. intros _.
    apply (C_free_undoes_C_CString _ _ _ _ _ H1).
    apply (C_free_undoes_C_CString _ _ _ _ _ H2). exact Hw3.
Qed.

(** X7: [Clone] leaves the registry exactly as it found it on every call
    that the process survives, with or without a callback, when the
    sub-translators and the checkout teardown leave the registry alone: the
    entry registered for the callback is removed by the deferred release and
    no other entry is touched. *)
Theorem Clone_restores_registry url path options w :
  sub_translators_keep_registry →
  ¬ fatal (Clone url path options w) →
  pointerHandles (world_of (Clone url path options w)) = pointerHandles w.
Proof.
  intros Hkeep Hnf. destruct options as [o|].
  2:{ destruct (Clone_on_nil_options url path w) as (w' & -> & _ & Hreg). exact Hreg. }
  destruct (C_CString url w) as [curl w1] eqn:H1.
  destruct (C_CString path w1) as [cpath w2] eqn:H2.
  destruct (new_error w2) as [err w3] eqn:H3.
  destruct (Clone_prefix_frame _ _ _ _ _ _ _ _ _ H1 H2 H3) as (_ & Hw3).
  destruct (populateCloneOptions_frame (Some o) err w3) as (_ & _ & _ & c & Hc & _).
  destruct (populateCloneOptions (Some o) err w3) as [c0 w4] eqn:H4.
  simpl in Hc. subst c0.
  destruct (set_checkout_branch_Some (CheckoutBranch o) c w4)
    as (c' & w5 & H5 & (_ & _ & _ & _ & Hpl) & (Hw5 & _) & _).
  destruct (Clone_Some_final _ _ _ _ _ _ _ _ _ _ _ _ _ _ H1 H2 H3 H4 H5 Hnf)
    as (wb & -> & Hwb & _).
  destruct (C_free_frame curl (C_free cpath (freeCloneOptions (Some c') wb))) as (-> & _).
  destruct (C_free_frame cpath (freeCloneOptions (Some c') wb)) as (-> & _).
  rewrite freeCloneOptions_registry, run_freeCheckoutOptions_registry, Hwb, Hw5, Hpl
    by done.
  destruct (populateCloneOptions_registry _ _ _ _ _ Hkeep H4)
    as [[Hnull ->]|(Hnn & Hfree & ->)].
  - rewrite Hnull. destruct (decide (NULL ≠ NULL)) as [|_]; [done|]. exact Hw3.
  - destruct (decide (remote_cb_payload c ≠ NULL)) as [_|]; [|done].
    rewrite delete_insert_id by exact Hfree. exact Hw3.
Qed.

(** ** Further properties: the native call and the dispatch of the hook *)

(** The events of one native call: the call itself, then at most one entry
    into the trampoline, with the payload of the options. *)
Lemma C_git_clone_events curl cpath c w :
  ∃ rest,
    trace (world_of (C_git_clone curl cpath (Some c) w))
    = (trace w ++ EvNativeClone curl cpath (Some c) (cheap w) :: rest)%list
    ∧ (rest = [] ∨ rest = [EvTrampoline (remote_cb_payload c)])
    ∧ (remote_cb c = false → rest = []).
Proof.
  unfold C_git_clone.
  destruct (git_clone _ _ _ _) as [ret out|crepo cname curl' dflt k].
  { exists []. simpl. split; [done|]. split; [by left | done]. }
  destruct (remote_cb c) eqn:Hcb.
  - exists [EvTrampoline (remote_cb_payload c)]. split; [|split; [by right | done]].
    rewrite (world_of_bind trace).
    + rewrite remoteCreateCallback_trace. simpl. rewrite <- app_assoc. done.
    + intros [code cremote] w0. done.
  - exists []. simpl. split; [done|]. split; [by left | done].
Qed.

(** The fields translation fills from the configuration itself. *)
Lemma populateCloneOptions_fields o errorTarget w c w' :
  populateCloneOptions (Some o) errorTarget w = (Some c, w') →
  bare c = cbool (Bare o)
  ∧ (remote_cb c = true ↔ is_Some (RemoteCreateCallback o))
  ∧ (is_Some (RemoteCreateCallback o) →
     Get (remote_cb_payload c) w'
     = Some (as_cloneCallbackData {| options := Some o; errorTarget := errorTarget |})).
Proof.
  unfold populateCloneOptions, with_native. simpl.
  destruct (populateCheckoutOptions _ _ _ _) as [co [h1 c1]]. simpl.
  destruct (populateFetchOptions _ _ _) as [fo [h2 c2]]. simpl.
  destruct (RemoteCreateCallback o) as [callback|]; simpl; intros [= <- <-]; simpl.
  - split; [done|]. split; [split; eauto|]. intros _. unfold Get. simpl.
    apply lookup_insert_eq.
  - split; [done|]. split; [split; [done|intros [x Hx]; done]|].
    intros [x Hx]. done.
Qed.

(** X8: on a present configuration [Clone] always reaches the native clone
    primitive and invokes it exactly once; the trampoline is entered at most
    once, with the payload of the options, and not at all without a
    callback.  The options handed to the engine carry the bare flag of the
    configuration, have the hook and the payload set exactly when the
    configuration has a callback, and in the state of the call the payload
    resolves to an entry holding this configuration and the error variable
    of this call. *)
Theorem Clone_native_call_once url path o w curl w1 cpath w2 err w3 c w4 c' w5 :
  C_CString url w = (curl, w1) →
  C_CString path w1 = (cpath, w2) →
  new_error w2 = (err, w3) →
  populateCloneOptions (Some o) err w3 = (Some c, w4) →
  set_checkout_branch (CheckoutBranch o) (Some c) w4 = Ok (Some c') w5 →
  ∃ rest,
    trace (world_of (Clone url path (Some o) w))
    = (trace w ++ EvNativeClone curl cpath (Some c') (cheap w5) :: rest)%list
    ∧ (rest = [] ∨ rest = [EvTrampoline (remote_cb_payload c')])
    ∧ (RemoteCreateCallback o = None → rest = [])
    ∧ bare c' = cbool (Bare o)
    ∧ (remote_cb c' = true ↔ is_Some (RemoteCreateCallback o))
    ∧ (remote_cb_payload c' ≠ NULL ↔ is_Some (RemoteCreateCallback o))
    ∧ (is_Some (RemoteCreateCallback o) →
       Get (remote_cb_payload c') w5
       = Some (as_cloneCallbackData {| options := Some o; errorTarget := err |})).
Proof.
  intros H1 H2 H3 H4 H5.
  destruct (set_checkout_branch_Some (CheckoutBranch o) c w4)
    as (c2 & w5' & H5' & (_ & _ & Hbare & Hcb & Hpl) & (Hreg5 & _ & _ & Htr5) & _).
  rewrite H5 in H5'. injection H5' as <- <-.
  destruct (populateCloneOptions_fields _ _ _ _ _ H4) as (Hb & Hhook & Hget).
  pose proof (populateCloneOptions_payload_iff _ _ _ _ _ H4) as Hpayload.
  destruct (C_git_clone_events curl cpath c' w5) as (rest & Htr6 & Hshape & Hnohook).
  exists rest. split; [|split; [exact Hshape|split; [|split; [congruence|]]]].
  - destruct (Clone_prefix_frame _ _ _ _ _ _ _ _ _ H1 H2 H3) as (Htr3 & _).
    pose proof (populateCloneOptions_frame (Some o) err w3) as (_ & _ & Htr4 & _).
    rewrite H4 in Htr4. simpl in Htr4.
    unfold Clone. rewrite H1, H2, H3, H4, H5.
    rewrite (world_of_defer_ trace); [|intros; apply C_free_frame].
    rewrite (world_of_defer_ trace); [|intros; apply C_free_frame].
    rewrite (world_of_defer_ trace); [|intros; apply freeCloneOptions_frame].
    rewrite (world_of_bind trace).
    + rewrite Htr6, Htr5, Htr4, Htr3. done.
    + intros [ret ptr] w0.
      destruct (Clone_return_cases ret ptr err w0) as (v & w' & -> & _ & Ht & _). done.
  - intros Hnone. apply Hnohook. rewrite Hcb.
    destruct (remote_cb c) eqn:Hrc; [|done].
    destruct Hhook as [Hh _]. destruct (Hh eq_refl) as [x Hx]. congruence.
  - rewrite Hcb. split; [exact Hhook|]. rewrite Hpl. split; [exact Hpayload|].
    intros Hsome. rewrite <- (Hget Hsome). unfold Get. by rewrite Hreg5.
Qed.

(** The success path of the trampoline, with the error cells it leaves. *)
Lemma remoteCreateCallback_success_state
    crepo cname curl payload w data o callback r ret :
  Get payload w = Some (as_cloneCallbackData data) →
  options data = Some o →
  RemoteCreateCallback o = Some callback →
  callback (borrowed_repo crepo w) (C_GoString cname) (C_GoString curl) = (Some r, ret) →
  (0 ≤ ret)%Z →
  ∃ w', remoteCreateCallback crepo cname curl payload w
          = Ok (ErrorCodeOK, Some (remote_ptr r)) w'
        ∧ errcells w' = errcells w.
Proof.
  intros Hget Hopts Hcb Hcall Hret.
  unfold remoteCreateCallback, borrowed_repo, Get in *. simpl in *.
  rewrite Hget. simpl. rewrite Hopts, Hcb, Hcall. simpl.
  destruct (Z.ltb_spec ret 0) as [Hneg|_]; [lia|].
  eexists. split; reflexivity.
Qed.

(** The error variable of a call is non-nil and still holds nil when the
    native clone primitive is invoked. *)
Lemma Clone_error_variable w2 err w3 o c w4 c' w5 :
  new_error w2 = (err, w3) →
  populateCloneOptions (Some o) err w3 = (Some c, w4) →
  set_checkout_branch (CheckoutBranch o) (Some c) w4 = Ok (Some c') w5 →
  err ≠ NULL ∧ errcells w5 !! err = Some None.
Proof.
  intros H3 H4 H5.
  destruct (set_checkout_branch_Some (CheckoutBranch o) c w4)
    as (c2 & w5' & H5' & _ & (_ & He5 & _) & _).
  rewrite H5 in H5'. injection H5' as <- <-.
  pose proof (populateCloneOptions_frame (Some o) err w3) as (He4 & _).
  rewrite H4 in He4. simpl in He4. rewrite He5, He4.
  unfold new_error in H3. injection H3 as <- <-. simpl.
  split; [apply fresh_ptr_not_null | apply lookup_insert_eq].
Qed.

(** The native call when the hook is installed and the engine reaches the
    creation of the remote: the engine goes on with what the trampoline
    returns. *)
Lemma C_git_clone_with_hook curl cpath c w crepo cname curl' dflt k :
  remote_cb c = true →
  git_clone curl cpath (Some c) (log (EvNativeClone curl cpath (Some c) (cheap w)) w)
  = NativeCreateRemote crepo cname curl' dflt k →
  C_git_clone curl cpath (Some c) w
  = bind (remoteCreateCallback crepo cname curl' (remote_cb_payload c)
            (log (EvNativeClone curl cpath (Some c) (cheap w)) w))
         (λ '(code, cremote) w, Ok (k code (default NULL cremote)) w).
Proof. intros Hcb He. unfold C_git_clone. cbv zeta. rewrite He, Hcb. reflexivity. Qed.

(** In the state of the native call the payload of the options resolves to
    the entry of this call. *)
Lemma Clone_payload_resolves o err w3 c w4 c' w5 callback ev :
  populateCloneOptions (Some o) err w3 = (Some c, w4) →
  set_checkout_branch (CheckoutBranch o) (Some c) w4 = Ok (Some c') w5 →
  RemoteCreateCallback o = Some callback →
  remote_cb c' = true
  ∧ Get (remote_cb_payload c') (log ev w5)
    = Some (as_cloneCallbackData {| options := Some o; errorTarget := err |}).
Proof.
  intros H4 H5 Hcb.
  destruct (set_checkout_branch_Some (CheckoutBranch o) c w4)
    as (c2 & w5' & H5' & (_ & _ & _ & Hrc & Hpl) & (Hreg5 & _) & _).
  rewrite H5 in H5'. injection H5' as <- <-.
  destruct (populateCloneOptions_fields _ _ _ _ _ H4) as (_ & Hhook & Hget).
  assert (is_Some (RemoteCreateCallback o)) as Hsome by (rewrite Hcb; eauto).
  split; [rewrite Hrc; by apply Hhook|].
  rewrite <- (Hget Hsome). unfold Get. simpl. by rewrite Hreg5, Hpl.
Qed.

(** X9: a call whose configuration has a callback, when the engine reaches
    the creation of the remote and the callback returns a remote with a
    non-negative code.  The engine goes on with the success code and the
    native pointer of that remote; no error has been captured, so [Clone]
    returns what the final code of the engine says: the error of the
    standard mapping for a negative code, a handle on the engine's
    repository otherwise. *)
Theorem Clone_hands_callback_remote_to_engine
    url path o w curl w1 cpath w2 err w3 c w4 c' w5
    callback crepo cname curl' dflt k r ret :
  C_CString url w = (curl, w1) →
  C_CString path w1 = (cpath, w2) →
  new_error w2 = (err, w3) →
  populateCloneOptions (Some o) err w3 = (Some c, w4) →
  set_checkout_branch (CheckoutBranch o) (Some c) w4 = Ok (Some c') w5 →
  RemoteCreateCallback o = Some callback →
  git_clone curl cpath (Some c') (log (EvNativeClone curl cpath (Some c') (cheap w5)) w5)
  = NativeCreateRemote crepo cname curl' dflt k →
  callback (borrowed_repo crepo w5) (C_GoString cname) (C_GoString curl') = (Some r, ret) →
  (0 ≤ ret)%Z →
  ∃ v w6 w',
    C_git_clone curl cpath (Some c') w5 = Ok (k ErrorCodeOK (remote_ptr r)) w6
    ∧ load_error err w6 = None
    ∧ Clone url path (Some o) w = Ok v w'
    ∧ ((fst (k ErrorCodeOK (remote_ptr r)) < 0)%Z →
       v = inr (MakeGitError (fst (k ErrorCodeOK (remote_ptr r)))))
    ∧ ((0 ≤ fst (k ErrorCodeOK (remote_ptr r)))%Z →
       ∃ repo, v = inl repo ∧ repo_ptr repo = snd (k ErrorCodeOK (remote_ptr r))).
Proof.
  intros H1 H2 H3 H4 H5 Hcb Hengine Hcall Hret.
  set (ev := EvNativeClone curl cpath (Some c') (cheap w5)) in *.
  destruct (Clone_payload_resolves _ _ _ _ _ _ _ _ ev H4 H5 Hcb) as (Hrc & Hget).
  destruct (Clone_error_variable _ _ _ _ _ _ _ _ H3 H4 H5) as (_ & Herr).
  destruct (remoteCreateCallback_success_state crepo cname curl' (remote_cb_payload c')
              (log ev w5) _ _ _ _ _ Hget eq_refl Hcb Hcall Hret) as (w6 & Htr & He6).
  assert (C_git_clone curl cpath (Some c') w5 = Ok (k ErrorCodeOK (remote_ptr r)) w6)
    as Hnative.
  { rewrite (C_git_clone_with_hook _ _ _ _ _ _ _ _ _ Hrc Hengine). fold ev.
    rewrite Htr. reflexivity. }
  assert (load_error err w6 = None) as Hload.
  { unfold load_error. rewrite He6. simpl. by rewrite Herr. }
  destruct (k ErrorCodeOK (remote_ptr r)) as [ret' ptr'] eqn:Hk.
  destruct (Clone_return_cases ret' ptr' err w6)
    as (v & w7 & Hreturn & _ & _ & _ & Hneg & Hpos).
  exists v, w6. eexists. split; [exact Hnative|]. split; [exact Hload|].
  split.
  { unfold Clone. rewrite H1, H2, H3, H4, H5, Hnative. cbn [bind]. rewrite Hreturn.
    reflexivity. }
  simpl. split.
  - apply Hneg. rewrite Hload. intros [_ Hn]. by apply Hn.
  - intros Hge. destruct Hpos as (repo & -> & Hptr & _); [|exact Hge|eauto].
    rewrite Hload. intros [_ Hn]. by apply Hn.
Qed.

(** X10: a call whose configuration has a callback, when the engine reaches
    the creation of the remote, the callback returns a remote together with
    a negative code, and the engine passes the code of the hook on as its
    own.  [Clone] returns the error built from the text of the callback's
    code, not the error of the standard mapping. *)
Theorem Clone_returns_callback_error
    url path o w curl w1 cpath w2 err w3 c w4 c' w5
    callback crepo cname curl' dflt k r ret :
  C_CString url w = (curl, w1) →
  C_CString path w1 = (cpath, w2) →
  new_error w2 = (err, w3) →
  populateCloneOptions (Some o) err w3 = (Some c, w4) →
  set_checkout_branch (CheckoutBranch o) (Some c) w4 = Ok (Some c') w5 →
  RemoteCreateCallback o = Some callback →
  git_clone curl cpath (Some c') (log (EvNativeClone curl cpath (Some c') (cheap w5)) w5)
  = NativeCreateRemote crepo cname curl' dflt k →
  callback (borrowed_repo crepo w5) (C_GoString cname) (C_GoString curl') = (Some r, ret) →
  (ret < 0)%Z →
  fst (k ErrorCodeUser NULL) = ErrorCodeUser →
  ∃ w', Clone url path (Some o) w = Ok (inr (errors_New (ErrorCode_String ret))) w'.
Proof.
  intros H1 H2 H3 H4 H5 Hcb Hengine Hcall Hret Hpass.
  set (ev := EvNativeClone curl cpath (Some c') (cheap w5)) in *.
  destruct (Clone_payload_resolves _ _ _ _ _ _ _ _ ev H4 H5 Hcb) as (Hrc & Hget).
  destruct (Clone_error_variable _ _ _ _ _ _ _ _ H3 H4 H5) as (Hnn & _).
  destruct (remoteCreateCallback_negative_code_with_remote crepo cname curl'
              (remote_cb_payload c') (log ev w5) _ _ _ _ _ Hget eq_refl Hcb Hcall Hret Hnn)
    as (w6 & Htr & Hload & _).
  simpl in Hload.
  destruct (k ErrorCodeUser NULL) as [ret' ptr'] eqn:Hk. simpl in Hpass. subst ret'.
  assert (C_git_clone curl cpath (Some c') w5 = Ok (ErrorCodeUser, ptr') w6) as Hnative.
  { rewrite (C_git_clone_with_hook _ _ _ _ _ _ _ _ _ Hrc Hengine). fold ev.
    rewrite Htr. simpl. by rewrite Hk. }
  destruct (Clone_return_cases ErrorCodeUser ptr' err w6)
    as (v & w7 & Hreturn & _ & _ & Hcaptured & _).
  rewrite (Hcaptured _ eq_refl Hload) in Hreturn.
  eexists. unfold Clone. rewrite H1, H2, H3, H4, H5, Hnative. cbn [bind].
  rewrite Hreturn. reflexivity.
Qed.

End Bridge.

Arguments mkWorld {_ _ _ _} _ _ _ _ _ _.
Arguments pointerHandles {_ _ _ _} _.
Arguments cheap {_ _ _ _} _.
Arguments errcells {_ _ _ _} _.
Arguments goheap {_ _ _ _} _.
Arguments finalizers {_ _ _ _} _.
Arguments trace {_ _ _ _} _.
Arguments Ok {_ _ _ _ _} _ _.
Arguments Abort {_ _ _ _ _} _ _.
Arguments world_of {_ _ _ _ _} _.
Arguments aborts {_ _ _ _ _} _.
Arguments mkCloneOptions {_ _} _ _ _ _ _.
Arguments mk_git_clone_options {_ _} _ _ _ _ _ _.
Arguments checkout_opts {_ _} _.
Arguments fetch_opts {_ _} _.
Arguments bare {_ _} _.
Arguments checkout_branch {_ _} _.
Arguments remote_cb {_ _} _.
Arguments remote_cb_payload {_ _} _.
Arguments mk_cloneCallbackData {_ _} _ _.
Arguments as_cloneCallbackData {_ _} _.
Arguments as_other {_ _} _.
Arguments EvNativeClone {_ _} _ _ _ _.
Arguments EvTrampoline {_ _} _.
Arguments load_error {_ _ _ _} _ _.
Arguments Get {_ _ _ _} _ _.
Arguments C_CString {_ _ _ _} _ _.

(** ** A concrete set of collaborators

    Checkout options that carry a target directory (translated to a buffer
    of the C heap, which the teardown frees), fetch options without content,
    and an engine that reaches the creation of the remote and passes a
    failure of the hook on to its caller. *)

Definition sample_World : Type := World string unit N unit.
Definition sample_Native : Type := Native string unit.

Definition sample_ErrorCode_String (code : Z) : string :=
  if decide (code = -1)%Z then "Generic" else "Unknown".
Definition sample_MakeGitError (code : Z) : error := GitError code "native error".
Definition sample_cbool (b : bool) : Z := if b then 1%Z else 0%Z.

Definition sample_populateCheckoutOptions (co : N) (opts : option string)
    (errorTarget : N) (n : sample_Native) : N * sample_Native :=
  match opts with
  | None => (co, n)
  | Some dir => let p := fresh_ptr (dom (snd n)) in (p, (fst n, <[p := dir]> (snd n)))
  end.

Definition sample_populateFetchOptions (fo : unit) (opts : option unit)
    (n : sample_Native) : unit * sample_Native := (fo, n).

Definition sample_freeCheckoutOptions (co : N) (n : sample_Native) : sample_Native :=
  (fst n, if decide (co = 0%N) then snd n else delete co (snd n)).

Definition sample_git_clone (curl cpath : N)
    (cOptions : option (git_clone_options N unit)) (w : sample_World) : native_run :=
  NativeCreateRemote 100 (Some "origin") (cheap w !! curl) (0%Z, 300%N)
    (λ code remote, if (code <? 0)%Z then (code, 0%N) else (0%Z, 200%N)).

Definition sample_Clone :=
  Clone string unit N unit 0 (-7) sample_ErrorCode_String sample_MakeGitError
        sample_cbool 0%N tt sample_populateCheckoutOptions
        sample_populateFetchOptions sample_freeCheckoutOptions sample_git_clone.

Definition sample_remoteCreateCallback :=
  remoteCreateCallback string unit N unit 0 (-7) sample_ErrorCode_String.

Definition sample_freeCloneOptions :=
  freeCloneOptions string unit N unit sample_freeCheckoutOptions.

Definition empty_World : sample_World := mkWorld ∅ ∅ ∅ ∅ ∅ [].

(** Remote-creation callbacks: one that fails the usual way (no remote and
    the generic error code), one that fails but returns a remote, one that
    succeeds, one that reports success without a remote. *)
Definition callback_fails : RemoteCreateCallbackT := λ _ _ _, (None, (-1)%Z).
Definition callback_fails_with_remote : RemoteCreateCallbackT :=
  λ _ _ _, (Some (mkRemote 50 60), (-1)%Z).
Definition callback_succeeds : RemoteCreateCallbackT :=
  λ _ _ _, (Some (mkRemote 50 60), 0%Z).
Definition callback_succeeds_without_remote : RemoteCreateCallbackT :=
  λ _ _ _, (None, 0%Z).

Definition sample_options (branch : string) (callback : option RemoteCreateCallbackT)
    : CloneOptions string unit :=
  mkCloneOptions (Some "/tmp/work") None false branch callback.

(** A world in which token 7 resolves to the registration entry of
    [callback], with error slot 3. *)
Definition registered_World (callback : RemoteCreateCallbackT) : sample_World :=
  mkWorld {[ 7%N := as_cloneCallbackData
                      (mk_cloneCallbackData (Some (sample_options "" (Some callback))) 3%N) ]}
          ∅ {[ 3%N := None ]} ∅ {[ 50%N ]} [].

(** ** The theorems at concrete inputs *)

(** The trampoline on a token the registry never issued. *)
Lemma remoteCreateCallback_unresolved_payload_panics_witness :
  ∃ w', sample_remoteCreateCallback 100 (Some "origin") (Some "https://example.com/repo.git")
          5 (registered_World callback_succeeds)
        = Abort (GoPanic "invalid remote create callback") w'
      ∧ pointerHandles w' = pointerHandles (registered_World callback_succeeds)
      ∧ errcells w' = errcells (registered_World callback_succeeds).
Proof.
  apply (remoteCreateCallback_unresolved_payload_panics string unit N unit 0 (-7)
           sample_ErrorCode_String 100 (Some "origin")
           (Some "https://example.com/repo.git") 5 (registered_World callback_succeeds)).
  reflexivity.
Defined.

(** The trampoline on a callback that reports success without a remote. *)
Lemma remoteCreateCallback_success_without_remote_aborts_witness :
  aborts (sample_remoteCreateCallback 100 (Some "origin") (Some "https://example.com/repo.git")
            7 (registered_World callback_succeeds_without_remote)).
Proof.
  refine (proj1 (remoteCreateCallback_success_without_remote_aborts string unit N unit 0 (-7)
           sample_ErrorCode_String 100 (Some "origin")
           (Some "https://example.com/repo.git") 7
           (registered_World callback_succeeds_without_remote)
           (mk_cloneCallbackData
              (Some (sample_options "" (Some callback_succeeds_without_remote))) 3%N)
           (sample_options "" (Some callback_succeeds_without_remote))
           callback_succeeds_without_remote 0%Z _ _ _ _ _));
    [reflexivity | reflexivity | reflexivity | reflexivity | lia].
Defined.

(** The trampoline on a callback that succeeds: the remote at address 50,
    which had a finalizer, has none afterwards. *)
Lemma remoteCreateCallback_success_hands_over_remote_witness :
  50%N ∈ finalizers (registered_World callback_succeeds)
  ∧ ∃ w', sample_remoteCreateCallback 100 (Some "origin")
            (Some "https://example.com/repo.git") 7 (registered_World callback_succeeds)
          = Ok (0%Z, Some 60%N) w'
        ∧ (50%N ∉ finalizers w')
        ∧ pointerHandles w' = pointerHandles (registered_World callback_succeeds)
        ∧ errcells w' = errcells (registered_World callback_succeeds).
Proof.
  split; [vm_compute; reflexivity|].
  apply (remoteCreateCallback_success_hands_over_remote string unit N unit 0 (-7)
           sample_ErrorCode_String 100 (Some "origin")
           (Some "https://example.com/repo.git") 7
           (registered_World callback_succeeds)
           (mk_cloneCallbackData (Some (sample_options "" (Some callback_succeeds))) 3%N)
           (sample_options "" (Some callback_succeeds))
           callback_succeeds (mkRemote 50 60) 0%Z);
    [reflexivity | reflexivity | reflexivity | reflexivity | lia].
Defined.

(** The trampoline on a callback that fails the usual way. *)
Lemma remoteCreateCallback_nil_remote_negative_code_faults_witness :
  ∃ w', sample_remoteCreateCallback 100 (Some "origin")
          (Some "https://example.com/repo.git") 7 (registered_World callback_fails)
        = Abort (FatalThrow pointer_not_in_heap) w'
      ∧ load_error 3 w' = load_error 3 (registered_World callback_fails)
      ∧ sample_remoteCreateCallback 100 (Some "origin")
          (Some "https://example.com/repo.git") 7 (registered_World callback_fails)
        ≠ Ok ((-7)%Z, None) w'.
Proof.
  apply (remoteCreateCallback_nil_remote_negative_code_faults string unit N unit 0 (-7)
           sample_ErrorCode_String 100 (Some "origin")
           (Some "https://example.com/repo.git") 7
           (registered_World callback_fails)
           (mk_cloneCallbackData (Some (sample_options "" (Some callback_fails))) 3%N)
           (sample_options "" (Some callback_fails))
           callback_fails (-1)%Z);
    [reflexivity | reflexivity | reflexivity | reflexivity | lia].
Defined.

(** The steps of [Clone] on a callback that fails and returns a remote, up
    to the return of the native clone primitive. *)
Definition failing_options : CloneOptions string unit :=
  sample_options "dev" (Some callback_fails_with_remote).
Definition step_curl : N * sample_World :=
  C_CString "https://example.com/repo.git" empty_World.
Definition step_cpath : N * sample_World := C_CString "/tmp/repo" (snd step_curl).
Definition step_err : N * sample_World := new_error string unit N unit (snd step_cpath).
Definition step_translate : option (git_clone_options N unit) * sample_World :=
  populateCloneOptions string unit N unit sample_cbool 0%N tt
    sample_populateCheckoutOptions sample_populateFetchOptions
    (Some failing_options) (fst step_err) (snd step_err).
Definition step_branch : Result string unit N unit (option (git_clone_options N unit)) :=
  set_checkout_branch string unit N unit "dev" (fst step_translate) (snd step_translate).
Definition step_branch_options : option (git_clone_options N unit) :=
  match step_branch with Ok c _ => c | Abort _ _ => None end.
Definition step_native : Result string unit N unit (Z * N) :=
  C_git_clone string unit N unit 0 (-7) sample_ErrorCode_String sample_git_clone
    (fst step_curl) (fst step_cpath) step_branch_options (world_of step_branch).
Definition step_native_code : Z * N :=
  match step_native with Ok a _ => a | Abort _ _ => (0%Z, 0%N) end.

(** [Clone] with a callback that fails and returns a remote: the engine
    passes the sentinel on and [Clone] returns the error captured by the
    trampoline. *)
Lemma Clone_interprets_return_code_witness :
  fst step_native_code = (-7)%Z
  ∧ ∃ w', sample_Clone "https://example.com/repo.git" "/tmp/repo"
            (Some failing_options) empty_World
          = Ok (inr (errors_New "Generic")) w'.
Proof.
  split; [vm_compute; reflexivity|].
  destruct (Clone_interprets_return_code string unit N unit 0 (-7)
              sample_ErrorCode_String sample_MakeGitError sample_cbool 0%N tt
              sample_populateCheckoutOptions sample_populateFetchOptions
              sample_freeCheckoutOptions sample_git_clone
              "https://example.com/repo.git" "/tmp/repo" failing_options empty_World
              (fst step_curl) (snd step_curl) (fst step_cpath) (snd step_cpath)
              (fst step_err) (snd step_err) (fst step_translate) (snd step_translate)
              step_branch_options (world_of step_branch)
              (fst step_native_code) (snd step_native_code) (world_of step_native))
    as (v & w' & Heq & Ha & _);
    [vm_compute; reflexivity | vm_compute; reflexivity | vm_compute; reflexivity
    | vm_compute; reflexivity | vm_compute; reflexivity | vm_compute; reflexivity |].
  exists w'. unfold sample_Clone. rewrite Heq. f_equal.
  apply Ha; vm_compute; reflexivity.
Defined.

(** [Clone] with the branch override [dev]. *)
Lemma Clone_checkout_branch_override_witness :
  ∃ curl cpath c' heap rest,
    trace (world_of (sample_Clone "https://example.com/repo.git" "/tmp/repo"
                       (Some (sample_options "dev" None)) empty_World))
    = EvNativeClone curl cpath (Some c') heap :: rest
    ∧ heap !! checkout_branch c' = Some "dev".
Proof.
  edestruct (Clone_checkout_branch_override string unit N unit 0 (-7)
               sample_ErrorCode_String sample_MakeGitError sample_cbool 0%N tt
               sample_populateCheckoutOptions sample_populateFetchOptions
               sample_freeCheckoutOptions sample_git_clone
               "https://example.com/repo.git" "/tmp/repo"
               (sample_options "dev" None) empty_World)
    as (c' & w5 & rest & _ & Htr & Hne & _);
    [reflexivity | reflexivity | reflexivity | reflexivity |].
  eexists _, _, c', _, rest. split; [exact Htr|]. apply Hne. discriminate.
Defined.


(** ** Where the code departs from the specification *)

(** The structure and the state that translation of a configuration with a
    checkout target directory produces: the checkout sub-options own the
    buffer the checkout translator allocated. *)
Definition translated_options : option (git_clone_options N unit) :=
  fst (populateCloneOptions string unit N unit sample_cbool 0%N tt
         sample_populateCheckoutOptions sample_populateFetchOptions
         (Some (sample_options "" None)) 1%N empty_World).
Definition translated_World : sample_World :=
  snd (populateCloneOptions string unit N unit sample_cbool 0%N tt
         sample_populateCheckoutOptions sample_populateFetchOptions
         (Some (sample_options "" None)) 1%N empty_World).

(** C4, as stated, fails: on translated options whose checkout sub-options
    own a buffer, [freeCloneOptions] releases that buffer, which a release
    function that leaves the sub-options to their translators would keep. *)
Lemma freeCloneOptions_releases_checkout_sub_options :
  (checkout_opts <$> translated_options) = Some 1%N
  ∧ cheap translated_World !! 1%N = Some "/tmp/work"
  ∧ cheap (sample_freeCloneOptions translated_options translated_World) !! 1%N = None
  ∧ cheap (releaseFn_spec string unit N unit translated_options translated_World) !! 1%N
    = Some "/tmp/work"
  ∧ sample_freeCloneOptions translated_options translated_World
    ≠ releaseFn_spec string unit N unit translated_options translated_World.
Proof.
  split; [vm_compute; reflexivity|]. split; [vm_compute; reflexivity|].
  split; [vm_compute; reflexivity|]. split; [vm_compute; reflexivity|].
  intros Heq. apply (f_equal (λ w, cheap w !! 1%N)) in Heq.
  vm_compute in Heq. discriminate Heq.
Defined.

(** The trampoline and [Clone] on a callback that fails the usual way, with
    a negative code and no remote, and [Clone] on one that fails and returns
    a remote. *)
Definition usual_failure_in_trampoline : Result string unit N unit (Z * option N) :=
  sample_remoteCreateCallback 100 (Some "origin") (Some "https://example.com/repo.git")
    7 (registered_World callback_fails).
Definition usual_failure_in_Clone : Result string unit N unit (Repository + error) :=
  sample_Clone "https://example.com/repo.git" "/tmp/repo"
    (Some (sample_options "" (Some callback_fails))) empty_World.
Definition failure_with_remote_in_Clone : Result string unit N unit (Repository + error) :=
  sample_Clone "https://example.com/repo.git" "/tmp/repo"
    (Some (sample_options "" (Some callback_fails_with_remote))) empty_World.

(** C2 (what the code does when the callback fails the usual way, with a
    negative code and no remote): the trampoline does not store the error and
    does not return the sentinel, it is stopped by the runtime at the
    finalizer-clearing step; [Clone] returns no error at all.  The error of
    the callback reaches the caller only when a remote comes with the
    negative code. *)
Theorem Clone_loses_callback_error_on_nil_remote :
  usual_failure_in_trampoline
  = Abort (FatalThrow pointer_not_in_heap) (world_of usual_failure_in_trampoline)
  ∧ load_error 3 (world_of usual_failure_in_trampoline) = None
  ∧ usual_failure_in_Clone
    = Abort (FatalThrow pointer_not_in_heap) (world_of usual_failure_in_Clone)
  ∧ failure_with_remote_in_Clone
    = Ok (inr (errors_New (sample_ErrorCode_String (-1))))
         (world_of failure_with_remote_in_Clone).
Proof.
  split; [vm_compute; reflexivity|]. split; [vm_compute; reflexivity|].
  split; vm_compute; reflexivity.
Qed.

(** ** The further properties at concrete inputs *)

Arguments fatal {_ _ _ _ _} _.

(** A world in which token 7 resolves to an entry whose error target is
    nil. *)
Definition registered_World_without_target : sample_World :=
  mkWorld {[ 7%N := as_cloneCallbackData
                      (mk_cloneCallbackData
                         (Some (sample_options "" (Some callback_fails_with_remote))) 0%N) ]}
          ∅ {[ 3%N := None ]} ∅ {[ 50%N ]} [].

(** Collaborators that allocate and register nothing. *)
Definition quiet_populateCheckoutOptions (co : N) (opts : option string)
    (errorTarget : N) (n : sample_Native) : N * sample_Native := (co, n).
Definition quiet_freeCheckoutOptions (co : N) (n : sample_Native) : sample_Native := n.
Definition quiet_Clone :=
  Clone string unit N unit 0 (-7) sample_ErrorCode_String sample_MakeGitError
        sample_cbool 0%N tt quiet_populateCheckoutOptions
        sample_populateFetchOptions quiet_freeCheckoutOptions sample_git_clone.

(** A world with a buffer of its own on the C heap. *)
Definition busy_World : sample_World :=
  mkWorld ∅ {[ 1%N := "kept" ]} ∅ ∅ ∅ [].

Lemma remoteCreateCallback_captures_error_witness :
  ∃ w', sample_remoteCreateCallback 100 (Some "origin")
          (Some "https://example.com/repo.git") 7
          (registered_World callback_fails_with_remote)
        = Ok ((-7)%Z, None) w'
    ∧ errcells w'
      = <[3%N := Some (errors_New (sample_ErrorCode_String (-1)))]>
          (errcells (registered_World callback_fails_with_remote))
    ∧ (50%N ∉ finalizers w').
Proof.
  apply (remoteCreateCallback_captures_error string unit N unit 0 (-7)
           sample_ErrorCode_String 100 (Some "origin")
           (Some "https://example.com/repo.git") 7
           (registered_World callback_fails_with_remote)
           (mk_cloneCallbackData
              (Some (sample_options "" (Some callback_fails_with_remote))) 3%N)
           (sample_options "" (Some callback_fails_with_remote))
           callback_fails_with_remote (mkRemote 50 60) (-1)%Z);
    [reflexivity | reflexivity | reflexivity | reflexivity | lia | discriminate].
Defined.

Lemma remoteCreateCallback_nil_error_target_panics_witness :
  ∃ w', sample_remoteCreateCallback 100 (Some "origin")
          (Some "https://example.com/repo.git") 7 registered_World_without_target
        = Abort (GoPanic nil_dereference) w'
    ∧ errcells w' = errcells registered_World_without_target.
Proof.
  apply (remoteCreateCallback_nil_error_target_panics string unit N unit 0 (-7)
           sample_ErrorCode_String 100 (Some "origin")
           (Some "https://example.com/repo.git") 7 registered_World_without_target
           (mk_cloneCallbackData
              (Some (sample_options "" (Some callback_fails_with_remote))) 0%N)
           (sample_options "" (Some callback_fails_with_remote))
           callback_fails_with_remote (mkRemote 50 60) (-1)%Z);
    [reflexivity | reflexivity | reflexivity | reflexivity | lia | reflexivity].
Defined.

(** The url and path buffers on the path that panics (nil configuration),
    from a heap where address 1 is taken. *)
Lemma Clone_frees_url_and_path_buffers_witness :
  cheap (world_of (sample_Clone "https://example.com/repo.git" "/tmp/repo" None
                     busy_World)) !! 2%N = None
  ∧ cheap (world_of (sample_Clone "https://example.com/repo.git" "/tmp/repo" None
                       busy_World)) !! 3%N = None.
Proof.
  edestruct (Clone_frees_url_and_path_buffers string unit N unit 0 (-7)
               sample_ErrorCode_String sample_MakeGitError sample_cbool 0%N tt
               sample_populateCheckoutOptions sample_populateFetchOptions
               sample_freeCheckoutOptions sample_git_clone
               "https://example.com/repo.git" "/tmp/repo" None busy_World)
    as (_ & _ & Hurl & Hpath);
    [vm_compute; reflexivity | vm_compute; reflexivity
    | intros Hf; vm_compute in Hf; exact Hf |].
  split; [exact Hurl | exact Hpath].
Defined.

Lemma Clone_frees_branch_buffer_witness :
  cheap (world_of (sample_Clone "https://example.com/repo.git" "/tmp/repo"
                     (Some (sample_options "dev" None)) empty_World)) !! 4%N = None.
Proof.
  edestruct (Clone_frees_branch_buffer string unit N unit 0 (-7)
               sample_ErrorCode_String sample_MakeGitError sample_cbool 0%N tt
               sample_populateCheckoutOptions sample_populateFetchOptions
               sample_freeCheckoutOptions sample_git_clone
               "https://example.com/repo.git" "/tmp/repo"
               (sample_options "dev" None) empty_World)
    as (_ & _ & Hgone);
    [vm_compute; reflexivity | vm_compute; reflexivity | vm_compute; reflexivity
    | vm_compute; reflexivity | vm_compute; reflexivity | discriminate
    | intros Hf; vm_compute in Hf; exact Hf |].
  exact Hgone.
Defined.

Lemma Clone_restores_C_heap_witness :
  cheap (world_of (quiet_Clone "https://example.com/repo.git" "/tmp/repo"
                     (Some (sample_options "dev" (Some callback_succeeds))) busy_World))
  = cheap busy_World.
Proof.
  apply (Clone_restores_C_heap string unit N unit 0 (-7)
           sample_ErrorCode_String sample_MakeGitError sample_cbool 0%N tt
           quiet_populateCheckoutOptions sample_populateFetchOptions
           quiet_freeCheckoutOptions sample_git_clone).
  - split; [|split]; intros; reflexivity.
  - intros Hf; vm_compute in Hf; exact Hf.
Defined.

Lemma Clone_restores_registry_witness :
  pointerHandles
    (world_of (sample_Clone "https://example.com/repo.git" "/tmp/repo"
                 (Some (sample_options "dev" (Some callback_succeeds)))
                 (registered_World callback_fails)))
  = pointerHandles (registered_World callback_fails).
Proof.
  apply (Clone_restores_registry string unit N unit 0 (-7)
           sample_ErrorCode_String sample_MakeGitError sample_cbool 0%N tt
           sample_populateCheckoutOptions sample_populateFetchOptions
           sample_freeCheckoutOptions sample_git_clone).
  - split; [|split].
    + intros co [dir|] e n; reflexivity.
    + intros fo opts n; reflexivity.
    + intros co n; reflexivity.
  - intros Hf; vm_compute in Hf; exact Hf.
Defined.

Lemma Clone_native_call_once_witness :
  ∃ curl cpath c' heap rest,
    trace (world_of (sample_Clone "https://example.com/repo.git" "/tmp/repo"
                       (Some (sample_options "dev" (Some callback_succeeds)))
                       empty_World))
    = EvNativeClone curl cpath (Some c') heap :: rest
    ∧ (rest = [] ∨ rest = [EvTrampoline (remote_cb_payload c')])
    ∧ remote_cb c' = true.
Proof.
  edestruct (Clone_native_call_once string unit N unit 0 (-7)
               sample_ErrorCode_String sample_MakeGitError sample_cbool 0%N tt
               sample_populateCheckoutOptions sample_populateFetchOptions
               sample_freeCheckoutOptions sample_git_clone
               "https://example.com/repo.git" "/tmp/repo"
               (sample_options "dev" (Some callback_succeeds)) empty_World)
    as (rest & Htr & Hshape & _ & _ & Hhook & _);
    [vm_compute; reflexivity | vm_compute; reflexivity | vm_compute; reflexivity
    | vm_compute; reflexivity | vm_compute; reflexivity |].
  eexists _, _, _, _, rest. split; [exact Htr|]. split; [exact Hshape|].
  apply Hhook. eexists. reflexivity.
Defined.

Lemma Clone_hands_callback_remote_to_engine_witness :
  ∃ repo w', sample_Clone "https://example.com/repo.git" "/tmp/repo"
               (Some (sample_options "dev" (Some callback_succeeds))) empty_World
             = Ok (inl repo) w'
    ∧ repo_ptr repo = 200%N.
Proof.
  edestruct (Clone_hands_callback_remote_to_engine string unit N unit 0 (-7)
               sample_ErrorCode_String sample_MakeGitError sample_cbool 0%N tt
               sample_populateCheckoutOptions sample_populateFetchOptions
               sample_freeCheckoutOptions sample_git_clone
               "https://example.com/repo.git" "/tmp/repo"
               (sample_options "dev" (Some callback_succeeds)) empty_World)
    as (v & w6 & w' & _ & _ & Hclone & _ & Hpos);
    [vm_compute; reflexivity | vm_compute; reflexivity | vm_compute; reflexivity
    | vm_compute; reflexivity | vm_compute; reflexivity | reflexivity
    | reflexivity | reflexivity | lia |].
  destruct Hpos as (repo & -> & Hptr); [cbn; lia|].
  exists repo, w'. split; [exact Hclone | exact Hptr].
Defined.

Lemma Clone_returns_callback_error_witness :
  ∃ w', sample_Clone "https://example.com/repo.git" "/tmp/repo"
          (Some (sample_options "dev" (Some callback_fails_with_remote))) empty_World
        = Ok (inr (errors_New (sample_ErrorCode_String (-1)))) w'.
Proof.
  eapply (Clone_returns_callback_error string unit N unit 0 (-7)
            sample_ErrorCode_String sample_MakeGitError sample_cbool 0%N tt
            sample_populateCheckoutOptions sample_populateFetchOptions
            sample_freeCheckoutOptions sample_git_clone
            "https://example.com/repo.git" "/tmp/repo"
            (sample_options "dev" (Some callback_fails_with_remote)) empty_World);
    [vm_compute; reflexivity | vm_compute; reflexivity | vm_compute; reflexivity
    | vm_compute; reflexivity | vm_compute; reflexivity | reflexivity
    | reflexivity | reflexivity | lia | reflexivity].
Defined.
